(** * Weather ingestion service ([app.py]): store, fetcher, window query, routes

    A shallow embedding of the Flask application of [src/app.py]:
    the SQLite table [weather] with its [UNIQUE (timestamp, latitude, longitude)]
    constraint, [fetch_open_meteo], [upsert_records], [query_last_48h] and the
    three routes.  The library calls the program relies on (calendar
    arithmetic and [strftime], the [sqlite3] connection context manager,
    the [requests] exceptions) are modelled next to the code that uses them.

    What the model fixes:
    - instants are integers (nanoseconds for [pandas.Timestamp], microseconds
      for [datetime]); [strftime] cuts them to whole seconds and writes the
      year unpadded, as the C library does;
    - a float is NaN or a number given by its sign and remaining bits; the
      program only stores and compares floats, it does no arithmetic on them;
    - the database is the table [weather] in rowid order, absent until
      [init_db] has run; a row holds what its columns give back when read (a
      REAL column gives the negative zero back as the positive one); a
      connection keeps its uncommitted view apart from what is committed;
    - the reply of the upstream API is a timeout, a failed connection, or a
      status with a body that is not JSON or holds the three hourly arrays;
    - parsing of the upstream time strings and of query arguments and the
      three document renderers are parameters of the routes; of the stored
      timestamps only the 20-byte form is read back, any other text is NaT. *)

From Stdlib Require Import ZArith NArith List String Ascii Bool Lia.
From Stdlib Require Import Sorting.Sorted Sorting.Permutation.
Import ListNotations.

Local Open Scope string_scope.
Local Open Scope list_scope.
Local Open Scope Z_scope.

(* ================================================================== *)
(** ** Calendar arithmetic

    [datetime] and [pandas.Timestamp] count time on the proleptic Gregorian
    calendar.  The functions below follow the reference implementation of the
    [datetime] module ([_is_leap], [_days_before_year], [_days_in_month],
    [_days_before_month], [_ymd2ord], [_ord2ymd]); day 1 is 0001-01-01. *)

Module Calendar.

Definition is_leap (year : Z) : bool :=
  (year mod 4 =? 0) && (negb (year mod 100 =? 0) || (year mod 400 =? 0)).

Definition days_before_year (year : Z) : Z :=
  let y := year - 1 in
  y * 365 + y / 4 - y / 100 + y / 400.

(** [_DAYS_IN_MONTH], index 0 unused. *)
Definition DAYS_IN_MONTH : list Z :=
  [0; 31; 28; 31; 30; 31; 30; 31; 31; 30; 31; 30; 31].

(** [_DAYS_BEFORE_MONTH], index 0 unused. *)
Definition DAYS_BEFORE_MONTH : list Z :=
  [0; 0; 31; 59; 90; 120; 151; 181; 212; 243; 273; 304; 334].

Definition table (t : list Z) (month : Z) : Z := nth (Z.to_nat month) t 0.

Definition days_in_month (year month : Z) : Z :=
  if (month =? 2) && is_leap year then 29 else table DAYS_IN_MONTH month.

Definition days_before_month (year month : Z) : Z :=
  table DAYS_BEFORE_MONTH month
  + (if (2 <? month) && is_leap year then 1 else 0).

Definition ymd2ord (year month day : Z) : Z :=
  days_before_year year + days_before_month year month + day.

Definition DI400Y : Z := 146097.
Definition DI100Y : Z := 36524.
Definition DI4Y : Z := 1461.

(** The part of [_ord2ymd] after the 400-year cycle has been split off:
    [n] is the zero-based day inside the cycle, the year returned is counted
    from the first year of the cycle (1 .. 400). *)
Definition ord2ymd_cycle (n : Z) : Z * Z * Z :=
  let n100 := n / DI100Y in
  let n := n mod DI100Y in
  let n4 := n / DI4Y in
  let n := n mod DI4Y in
  let n1 := n / 365 in
  let n := n mod 365 in
  let year := 1 + n100 * 100 + n4 * 4 + n1 in
  if (n1 =? 4) || (n100 =? 4) then (year - 1, 12, 31)
  else
    let leapyear := (n1 =? 3) && (negb (n4 =? 24) || (n100 =? 3)) in
    let month := Z.shiftr (n + 50) 5 in
    let preceding :=
      table DAYS_BEFORE_MONTH month
      + (if (2 <? month) && leapyear then 1 else 0) in
    if n <? preceding then
      let month := month - 1 in
      let preceding :=
        preceding
        - (table DAYS_IN_MONTH month
           + (if (month =? 2) && leapyear then 1 else 0)) in
      (year, month, n - preceding + 1)
    else (year, month, n - preceding + 1).

Definition ord2ymd (n : Z) : Z * Z * Z :=
  let n := n - 1 in
  let n400 := n / DI400Y in
  let '(y, m, d) := ord2ymd_cycle (n mod DI400Y) in
  (n400 * 400 + y, m, d).

(** Broken-down UTC time, as [strftime] reads it. *)
Record civil : Type := mkCivil
  { year : Z; month : Z; day : Z; hour : Z; minute : Z; second : Z }.

(** Ordinal of 1970-01-01. *)
Definition EPOCH_ORDINAL : Z := 719163.

(** Whole seconds since the epoch to broken-down UTC time. *)
Definition of_epoch (s : Z) : civil :=
  let days := s / 86400 in
  let rem := s mod 86400 in
  let '(y, m, d) := ord2ymd (days + EPOCH_ORDINAL) in
  mkCivil y m d (rem / 3600) (rem mod 3600 / 60) (rem mod 60).

(** Broken-down UTC time to whole seconds since the epoch. *)
Definition to_epoch (c : civil) : Z :=
  (ymd2ord (year c) (month c) (day c) - EPOCH_ORDINAL) * 86400
  + hour c * 3600 + minute c * 60 + second c.

Definition valid_civil (c : civil) : bool :=
  (1 <=? month c) && (month c <=? 12)
  && (1 <=? day c) && (day c <=? days_in_month (year c) (month c))
  && (0 <=? hour c) && (hour c <? 24)
  && (0 <=? minute c) && (minute c <? 60)
  && (0 <=? second c) && (second c <? 60).

(** Lexicographic combination of two comparisons. *)
Definition lex (c1 c2 : comparison) : comparison :=
  match c1 with Eq => c2 | _ => c1 end.

(** Field-by-field comparison, most significant field first. *)
Definition civil_compare (a b : civil) : comparison :=
  lex (year a ?= year b)
  (lex (month a ?= month b)
  (lex (day a ?= day b)
  (lex (hour a ?= hour b)
  (lex (minute a ?= minute b) (second a ?= second b))))).

Definition year_length (y : Z) : Z := 365 + (if is_leap y then 1 else 0).

Definition valid_date (y m d : Z) : Prop :=
  1 <= m <= 12 /\ 1 <= d <= days_in_month y m.

Definition cycle_day_ok (n : Z) : bool :=
  let '(y, m, d) := ord2ymd_cycle n in
  (1 <=? y) && (y <=? 400) && (1 <=? m) && (m <=? 12)
  && (1 <=? d) && (d <=? days_in_month y m)
  && (ymd2ord y m d =? n + 1).

End Calendar.

(* ================================================================== *)
(** ** Text: zero-padded decimal fields and SQLite's BINARY collation *)

Definition digit (d : Z) : ascii := ascii_of_N (48 + Z.to_N d).

(** [width] decimal digits of [n], most significant first. *)
Fixpoint zero_pad (width : nat) (n : Z) : string :=
  match width with
  | O => EmptyString
  | S w => String (digit (n / 10 ^ Z.of_nat w mod 10)) (zero_pad w n)
  end.

(** Comparison of TEXT values under the default BINARY collation: byte by
    byte, a proper prefix sorts first. *)
Fixpoint text_compare (a b : string) : comparison :=
  match a, b with
  | EmptyString, EmptyString => Eq
  | EmptyString, String _ _ => Lt
  | String _ _, EmptyString => Gt
  | String x a', String y b' =>
      match N.compare (N_of_ascii x) (N_of_ascii y) with
      | Eq => text_compare a' b'
      | c => c
      end
  end.

Definition text_leb (a b : string) : bool :=
  match text_compare a b with Gt => false | _ => true end.

Definition text_eqb (a b : string) : bool :=
  match text_compare a b with Eq => true | _ => false end.

(** [%Y]: the year in decimal, as many digits as it has.  The C library
    behind [strftime] does not pad it, so the year 999 is written with three
    digits; years run from 1 to 9999 ([MINYEAR], [MAXYEAR]). *)
Definition year_text (y : Z) : string :=
  if y <? 10 then zero_pad 1 y
  else if y <? 100 then zero_pad 2 y
  else if y <? 1000 then zero_pad 3 y
  else zero_pad 4 y.

(** [strftime("%Y-%m-%dT%H:%M:%SZ")] on a broken-down time; the fields
    other than the year are padded to two digits. *)
Definition format_iso (c : Calendar.civil) : string :=
  (year_text (Calendar.year c) ++ "-" ++ zero_pad 2 (Calendar.month c) ++ "-"
   ++ zero_pad 2 (Calendar.day c) ++ "T" ++ zero_pad 2 (Calendar.hour c) ++ ":"
   ++ zero_pad 2 (Calendar.minute c) ++ ":" ++ zero_pad 2 (Calendar.second c)
   ++ "Z")%string.

(** The canonical text of the instant [s] seconds after the epoch. *)
Definition format_utc (s : Z) : string := format_iso (Calendar.of_epoch s).

(** Seconds for which the year has four digits (1000-01-01T00:00:00Z to
    9999-12-31T23:59:59Z).  Every nanosecond [pandas.Timestamp] lies inside;
    a Timestamp of a coarser unit can lie before, and is then written with a
    shorter year. *)
Definition MIN_SECOND : Z := -30610224000.
Definition MAX_SECOND : Z := 253402300799.

Definition four_digit_year (s : Z) : bool :=
  (MIN_SECOND <=? s) && (s <=? MAX_SECOND).

(** [pandas.Timestamp]: an instant in UTC, counted in nanoseconds since the
    epoch whatever unit the Timestamp keeps. *)
Definition Timestamp : Type := Z.

Definition Timestamp_second (t : Timestamp) : Z := t / 1000000000.

Definition Timestamp_strftime (t : Timestamp) : string :=
  format_utc (Timestamp_second t).

(** [datetime.datetime] in UTC: microseconds since the epoch. *)
Definition datetime : Type := Z.

Definition datetime_second (d : datetime) : Z := d / 1000000.

Definition datetime_strftime (d : datetime) : string :=
  format_utc (datetime_second d).

(** [timedelta(hours=h)] in microseconds. *)
Definition timedelta_hours (h : Z) : Z := h * 3600 * 1000000.

(* ================================================================== *)
(** ** Values: floats, cells, exceptions *)

(** A double that is a number: sign bit and the remaining 63 bits. *)
Record real : Type := mkReal { negative : bool; magnitude : N }.

(** A Python [float]. *)
Inductive float : Type :=
| nan
| num (r : real).

(** Numeric equality of two REAL values, as the unique index compares
    them: the two zeros are equal. *)
Definition real_eqb (a b : real) : bool :=
  ((magnitude a =? 0)%N && (magnitude b =? 0)%N)
  || (Bool.eqb (negative a) (negative b) && (magnitude a =? magnitude b)%N).

(** A cell of a DataFrame row as [iterrows] hands it over. *)
Inductive pyobj : Type :=
| PyFloat (f : float)
| PyNone.

Inductive exn : Type :=
| HTTPError (status : Z)   (* requests.HTTPError, from raise_for_status *)
| Timeout                  (* requests.exceptions.Timeout *)
| ConnectionError          (* requests.exceptions.ConnectionError *)
| ValueError
| TypeError
| IntegrityError           (* sqlite3.IntegrityError *)
| OperationalError.        (* sqlite3.OperationalError / pandas DatabaseError *)

Inductive result (A : Type) : Type :=
| Ok (a : A)
| Raise (e : exn).

Arguments Ok {A} a.
Arguments Raise {A} e.

(** [float(x)] on a cell. *)
Definition py_float (x : pyobj) : result float :=
  match x with
  | PyFloat f => Ok f
  | PyNone => Raise TypeError
  end.

(* ================================================================== *)
(** ** The measurement store

    Table [weather].  The surrogate key [id] is assigned by SQLite and read
    by no statement of the program; the table is kept in rowid order
    instead, a replaced row going to the end with its fresh rowid. *)

Record weather_row : Type := mkRow
  { timestamp : string;                    (* TEXT NOT NULL *)
    temperature_2m : option real;          (* REAL *)
    relative_humidity_2m : option real;    (* REAL *)
    latitude : real;                       (* REAL NOT NULL *)
    longitude : real }.                    (* REAL NOT NULL *)

(** The database file: [None] until the table has been created. *)
Definition database : Type := option (list weather_row).

(** Agreement on the columns of [UNIQUE (timestamp, latitude, longitude)]. *)
Definition same_key (a b : weather_row) : bool :=
  text_eqb (timestamp a) (timestamp b)
  && real_eqb (latitude a) (latitude b)
  && real_eqb (longitude a) (longitude b).

(** [INSERT OR REPLACE]: the rows in conflict with the new one are deleted,
    then the new row is inserted. *)
Definition replace_into (rows : list weather_row) (r : weather_row)
  : list weather_row :=
  filter (fun x => negb (same_key r x)) rows ++ [r].

(** What a column of REAL affinity keeps of a number.  SQLite writes a
    double without fractional part as an integer and turns it back into a
    double when the column is read: the bits come back as they were, except
    for the negative zero, which comes back as the positive one. *)
Definition real_column (r : real) : real :=
  if (magnitude r =? 0)%N then mkReal false 0 else r.

(** A Python float bound to a parameter and written to a REAL column: NaN
    goes in as NULL, a number as [real_column] keeps it. *)
Definition bind_float (f : float) : option real :=
  match f with
  | nan => None
  | num r => Some (real_column r)
  end.

(** *** Connections and transactions

    A connection sees [current]; [committed] is what the file holds.  The
    first INSERT opens a transaction implicitly, so the two differ until
    [commit] or [rollback]. *)

Record connection : Type := mkConn
  { committed : database; current : database }.

Definition M (A : Type) : Type := connection -> result A * connection.

Definition ret {A : Type} (a : A) : M A := fun c => (Ok a, c).

Definition bind {A B : Type} (m : M A) (k : A -> M B) : M B :=
  fun c =>
    match m c with
    | (Ok a, c') => k a c'
    | (Raise e, c') => (Raise e, c')
    end.

Definition lift {A : Type} (r : result A) : M A := fun c => (r, c).

Notation "x <- m ;; k" := (bind m (fun x => k))
  (at level 61, m at next level, right associativity).
Notation "m ;;; k" := (bind m (fun _ => k))
  (at level 61, right associativity).

Definition conn_commit : M unit :=
  fun c => (Ok tt, mkConn (current c) (current c)).

Definition conn_rollback : M unit :=
  fun c => (Ok tt, mkConn (committed c) (committed c)).

(** [get_conn] (app.py:23-26): [sqlite3.connect(DB_PATH)]. *)
Definition get_conn (db : database) : connection := mkConn db db.

(** [with get_conn() as conn: body]: commit when the body returns, roll
    back when it raises; the exception goes on to the caller. *)
Definition with_conn {A : Type} (body : M A) (db : database)
  : result A * database :=
  match body (get_conn db) with
  | (Ok a, c) => (Ok a, committed (snd (conn_commit c)))
  | (Raise e, c) => (Raise e, committed (snd (conn_rollback c)))
  end.

(** [CREATE TABLE IF NOT EXISTS weather (...)] (app.py:31-43). *)
Definition execute_create_table : M unit :=
  fun c =>
    match current c with
    | None => (Ok tt, mkConn (committed c) (Some []))
    | Some _ => (Ok tt, c)
    end.

(** [init_db] (app.py:29-44), run once when the module is loaded. *)
Definition init_db (db : database) : database :=
  snd (with_conn (execute_create_table ;;; conn_commit) db).

(** [INSERT OR REPLACE INTO weather (...) VALUES (?, ?, ?, ?, ?)]
    (app.py:91-104).  A NULL in a NOT NULL column without default aborts the
    statement with IntegrityError; [timestamp] is always a string.  The four
    numbers go into REAL columns, as [bind_float] has it. *)
Definition execute_insert_or_replace
  (ts : string) (temp hum lat lon : float) : M unit :=
  fun c =>
    match current c with
    | None => (Raise OperationalError, c)
    | Some rows =>
        match bind_float lat, bind_float lon with
        | Some la, Some lo =>
            let r := mkRow ts (bind_float temp) (bind_float hum) la lo in
            (Ok tt, mkConn (committed c) (Some (replace_into rows r)))
        | _, _ => (Raise IntegrityError, c)
        end
    end.

(** Insertion into a list ordered by [le]; equal keys keep their order.
    (SQL and pandas leave the order of equal keys open; the properties below
    do not depend on it.) *)
Fixpoint insert_by {A : Type} (le : A -> A -> bool) (x : A) (l : list A)
  : list A :=
  match l with
  | [] => [x]
  | y :: l' => if le x y then x :: l else y :: insert_by le x l'
  end.

Fixpoint sort_by {A : Type} (le : A -> A -> bool) (l : list A) : list A :=
  match l with
  | [] => []
  | x :: l' => insert_by le x (sort_by le l')
  end.

Definition timestamp_leb (a b : weather_row) : bool :=
  text_leb (timestamp a) (timestamp b).

(** [SELECT timestamp, temperature_2m, relative_humidity_2m, latitude,
    longitude FROM weather WHERE timestamp >= ? ORDER BY timestamp ASC]
    (app.py:116-121). *)
Definition select_since (cutoff : string) (rows : list weather_row)
  : list weather_row :=
  sort_by timestamp_leb
    (filter (fun r => text_leb cutoff (timestamp r)) rows).

Definition read_sql_query (cutoff : string) : M (list weather_row) :=
  fun c =>
    match current c with
    | None => (Raise OperationalError, c)
    | Some rows => (Ok (select_since cutoff rows), c)
    end.

(* ================================================================== *)
(** ** DataFrames and the program's database helpers *)

Record df_row : Type := mkDf
  { df_timestamp : Timestamp;
    df_temperature_2m : pyobj;
    df_relative_humidity_2m : pyobj;
    df_latitude : pyobj;
    df_longitude : pyobj }.

Definition DataFrame : Type := list df_row.

(** The body of the loop of [upsert_records] for one row (app.py:91-105):
    the parameter tuple is built left to right, then the statement runs. *)
Definition upsert_row (row : df_row) : M unit :=
  let ts := Timestamp_strftime (df_timestamp row) in
  temp <- lift (py_float (df_temperature_2m row)) ;;
  hum <- lift (py_float (df_relative_humidity_2m row)) ;;
  lat <- lift (py_float (df_latitude row)) ;;
  lon <- lift (py_float (df_longitude row)) ;;
  execute_insert_or_replace ts temp hum lat lon.

Fixpoint upsert_loop (df : DataFrame) (rows : Z) : M Z :=
  match df with
  | [] => ret rows
  | row :: rest => upsert_row row ;;; upsert_loop rest (rows + 1)
  end.

(** [upsert_records] (app.py:86-107). *)
Definition upsert_records (df : DataFrame) (db : database)
  : result Z * database :=
  with_conn (rows <- upsert_loop df 0 ;; conn_commit ;;; ret rows) db.

(** The cutoff of [query_last_48h] (app.py:111-113); [now] is
    [datetime.now(timezone.utc)], read when the query is made. *)
Definition cutoff_48h (now : datetime) : string :=
  datetime_strftime (now - timedelta_hours 48).

(** [query_last_48h] (app.py:110-126).  The rows are the records the
    cursor hands to pandas; [parse_dates] then reads the timestamp text back
    into Timestamps. *)
Definition query_last_48h (now : datetime) (db : database)
  : result (list weather_row) :=
  fst (with_conn (read_sql_query (cutoff_48h now)) db).

(** *** Reading timestamps back

    [read_sql_query(..., parse_dates=["timestamp"])] (app.py:115-125) hands
    the timestamp column to [to_datetime(col, errors="coerce")].  Below is
    the reading of the 20-byte form [YYYY-MM-DDTHH:MM:SSZ]; any other text
    reads as NaT here, among them the shorter texts the program writes for
    the years before 1000. *)

Definition digit_value (c : ascii) : option Z :=
  let n := Z.of_N (N_of_ascii c) in
  if (48 <=? n) && (n <=? 57) then Some (n - 48) else None.

(** [width] decimal digits off the front of [s], onto [acc]. *)
Fixpoint take_digits (width : nat) (acc : Z) (s : string)
  : option (Z * string) :=
  match width with
  | O => Some (acc, s)
  | S w =>
      match s with
      | EmptyString => None
      | String c rest =>
          match digit_value c with
          | Some d => take_digits w (acc * 10 + d) rest
          | None => None
          end
      end
  end.

(** The character [c] off the front of [s]. *)
Definition expect (c : ascii) (s : string) : option string :=
  match s with
  | String x rest => if Ascii.eqb x c then Some rest else None
  | EmptyString => None
  end.

Definition opt_bind {A B : Type} (o : option A) (k : A -> option B)
  : option B :=
  match o with
  | Some a => k a
  | None => None
  end.

Notation "'do' x '<-' o ';' k" := (opt_bind o (fun x => k))
  (at level 10, x pattern, o at level 100, k at level 200).

(** A timestamp text to the Timestamp it denotes; [None] is NaT. *)
Definition to_datetime_text (s : string) : option Timestamp :=
  do (y, s) <- take_digits 4 0 s;
  do s <- expect "-" s;
  do (m, s) <- take_digits 2 0 s;
  do s <- expect "-" s;
  do (d, s) <- take_digits 2 0 s;
  do s <- expect "T" s;
  do (hh, s) <- take_digits 2 0 s;
  do s <- expect ":" s;
  do (mm, s) <- take_digits 2 0 s;
  do s <- expect ":" s;
  do (ss, s) <- take_digits 2 0 s;
  do s <- expect "Z" s;
  match s with
  | EmptyString =>
      let c := Calendar.mkCivil y m d hh mm ss in
      if Calendar.valid_civil c
      then Some (Calendar.to_epoch c * 1000000000)
      else None
  | String _ _ => None
  end.

(** The timestamp column of the DataFrame [query_last_48h] returns. *)
Definition parse_dates (rows : list weather_row) : list (option Timestamp) :=
  map (fun r => to_datetime_text (timestamp r)) rows.

Definition is_some {A : Type} (o : option A) : bool :=
  match o with Some _ => true | None => false end.

(** The column holds a Timestamp.  The texts end in [Z], so every Timestamp
    read from them carries UTC as its time zone. *)
Definition tz_aware (col : list (option Timestamp)) : bool :=
  existsb is_some col.

(* ================================================================== *)
(** ** The upstream API and HTTP responses *)

Definition and_then {A B : Type} (r : result A) (k : A -> result B)
  : result B :=
  match r with
  | Ok a => k a
  | Raise e => Raise e
  end.

Notation "'let?' x ':=' r 'in' k" := (and_then r (fun x => k))
  (at level 10, x name, r at level 100, k at level 200).

(** An entry of an hourly value array: a number or [null]. *)
Inductive json_value : Type :=
| JNull
| JNumber (f : float).

(** [data.get("hourly", {})] with its three arrays; a key that is absent
    reads as the empty list, as [.get(key, [])] has it. *)
Record hourly : Type := mkHourly
  { time : list string;
    hourly_temperature_2m : list json_value;
    hourly_relative_humidity_2m : list json_value }.

Inductive http_body : Type :=
| NotJson
| Json (h : hourly).

(** What [requests.get(url, params=params, timeout=30)] meets. *)
Inductive http_reply : Type :=
| TimedOut
| Unreachable
| Reply (status : Z) (body : http_body).

Definition requests_get (reply : http_reply) : result (Z * http_body) :=
  match reply with
  | TimedOut => Raise Timeout
  | Unreachable => Raise ConnectionError
  | Reply status body => Ok (status, body)
  end.

(** [r.raise_for_status()]: client and server error codes raise. *)
Definition raise_for_status (status : Z) : result unit :=
  if (400 <=? status) && (status <? 600) then Raise (HTTPError status)
  else Ok tt.

(** [r.json()]. *)
Definition response_json (body : http_body) : result hourly :=
  match body with
  | NotJson => Raise ValueError
  | Json h => Ok h
  end.

Definition is_null (v : json_value) : bool :=
  match v with JNull => true | JNumber _ => false end.

(** A DataFrame column built from a value array: floats with NaN for
    [null], or, when nothing but [null] is there, objects holding [None]. *)
Definition column (vals : list json_value) : list pyobj :=
  if forallb is_null vals then map (fun _ => PyNone) vals
  else map (fun v => PyFloat (match v with JNull => nan | JNumber f => f end))
           vals.

(** [pd.DataFrame({...})] on three columns: all of one length, or
    ValueError. *)
Definition frame3 (ts : list Timestamp) (temps hums : list pyobj)
  : result (list (Timestamp * pyobj * pyobj)) :=
  if (List.length ts =? List.length temps)%nat
     && (List.length ts =? List.length hums)%nat
  then Ok (combine (combine ts temps) hums)
  else Raise ValueError.

Definition triple_leb (a b : Timestamp * pyobj * pyobj) : bool :=
  fst (fst a) <=? fst (fst b).

(** [.sort_values("timestamp")]. *)
Definition sort_values (rows : list (Timestamp * pyobj * pyobj))
  : list (Timestamp * pyobj * pyobj) :=
  sort_by triple_leb rows.

(** [df["timestamp"].min()] and [.max()]; [None] is NaT. *)
Definition timestamp_min (df : DataFrame) : option Timestamp :=
  match df with
  | [] => None
  | r :: rest =>
      Some (fold_left Z.min (map df_timestamp rest) (df_timestamp r))
  end.

Definition timestamp_max (df : DataFrame) : option Timestamp :=
  match df with
  | [] => None
  | r :: rest =>
      Some (fold_left Z.max (map df_timestamp rest) (df_timestamp r))
  end.

(** [strftime] on the result of [min()] / [max()]; NaT has none. *)
Definition strftime_or_raise (t : option Timestamp) : result string :=
  match t with
  | Some t => Ok (Timestamp_strftime t)
  | None => Raise ValueError
  end.

Inductive error_text : Type :=
| BadCoordinates            (* "Please provide numeric lat & lon query params" *)
| HttpErrorText (e : exn)   (* f"Open-Meteo HTTP error: {e}" *)
| StrOf (e : exn)           (* str(e) *)
| NoData.                   (* "No data available. Call /weather-report first." *)

Inductive json_body : Type :=
| ErrorBody (text : error_text)
| Summary (message : string) (rows_upserted : Z)
          (ts_from ts_to : string) (samples : Z).

Inductive response : Type :=
| Jsonify (body : json_body) (status : Z)
| SendFile (mimetype download_name : string) (content : list Byte.byte)
| Unhandled (e : exn).      (* an exception no handler caught *)

Definition status_code (r : response) : Z :=
  match r with
  | Jsonify _ status => status
  | SendFile _ _ _ => 200
  | Unhandled _ => 500
  end.

Definition is_file (r : response) : bool :=
  match r with SendFile _ _ _ => true | _ => false end.

(** The two [except] clauses of [weather_report], in their order. *)
Definition report_handler (e : exn) : response :=
  match e with
  | HTTPError _ => Jsonify (ErrorBody (HttpErrorText e)) 502
  | _ => Jsonify (ErrorBody (StrOf e)) 500
  end.

Section App.

(** [pd.to_datetime(_, utc=True)] on one entry of the time array; [None]
    when pandas cannot parse it. *)
Variable to_datetime : string -> option Timestamp.

(** [float(s)] on a query string; [None] when it raises ValueError. *)
Variable float_of_str : string -> option float.

(** The renderers behind the export routes: the spreadsheet writer on a
    sheet in whose timestamp column nothing of the 20-byte form was read
    (the file, or the exception it ends with), the HTML-to-PDF engine
    ([None] when it raises) and the fallback writer. *)
Variable to_excel :
  list (string * option real * option real) -> result (list Byte.byte).
Variable write_pdf : datetime -> list weather_row -> option (list Byte.byte).
Variable PdfPages : list weather_row -> list Byte.byte.

Fixpoint to_datetime_all (times : list string) : result (list Timestamp) :=
  match times with
  | [] => Ok []
  | s :: rest =>
      match to_datetime s with
      | None => Raise ValueError
      | Some t => let? ts := to_datetime_all rest in Ok (t :: ts)
      end
  end.

Definition empty {A : Type} (l : list A) : bool :=
  match l with [] => true | _ => false end.

(** [fetch_open_meteo] (app.py:51-82); [reply] is what the request of
    app.py:60 meets. *)
Definition fetch_open_meteo (reply : http_reply) (lat lon : float)
  : result DataFrame :=
  let? r := requests_get reply in
  let? _ := raise_for_status (fst r) in
  let? data := response_json (snd r) in
  let times := time data in
  let temps := hourly_temperature_2m data in
  let hums := hourly_relative_humidity_2m data in
  if empty times || empty temps || empty hums then Raise ValueError
  else
    let? ts := to_datetime_all times in
    let? frame := frame3 ts (column temps) (column hums) in
    Ok (map (fun row =>
               mkDf (fst (fst row)) (snd (fst row)) (snd row)
                    (PyFloat lat) (PyFloat lon))
            (sort_values frame)).

(** [float(request.args.get(name))] (app.py:133-134). *)
Definition arg_float (arg : option string) : result float :=
  match arg with
  | None => Raise TypeError
  | Some s =>
      match float_of_str s with
      | Some f => Ok f
      | None => Raise ValueError
      end
  end.

(** [GET /weather-report?lat=..&lon=..] (app.py:130-153). *)
Definition weather_report (lat_arg lon_arg : option string)
  (reply : http_reply) (db : database) : response * database :=
  match (let? lat := arg_float lat_arg in
         let? lon := arg_float lon_arg in Ok (lat, lon)) with
  | Raise _ => (Jsonify (ErrorBody BadCoordinates) 400, db)
  | Ok (lat, lon) =>
      match fetch_open_meteo reply lat lon with
      | Raise e => (report_handler e, db)
      | Ok df =>
          match upsert_records df db with
          | (Raise e, db') => (report_handler e, db')
          | (Ok upserted, db') =>
              match (let? a := strftime_or_raise (timestamp_min df) in
                     let? b := strftime_or_raise (timestamp_max df) in
                     Ok (a, b)) with
              | Raise e => (report_handler e, db')
              | Ok (a, b) =>
                  (Jsonify (Summary "Data fetched and stored" upserted a b
                                    (Z.of_nat (List.length df))) 200, db')
              end
          end
      end
  end.

(** [GET /export/excel] (app.py:156-176).  [out.to_excel] writes the sheet
    cell by cell and refuses a Timestamp that carries a time zone with
    ValueError ("Excel does not support datetimes with timezones"); no
    handler is around it, so the exception leaves the route. *)
Definition export_excel (now : datetime) (db : database) : response :=
  match query_last_48h now db with
  | Raise e => Unhandled e
  | Ok df =>
      if empty df then Jsonify (ErrorBody NoData) 400
      else
        let out :=
          map (fun r => (timestamp r, temperature_2m r, relative_humidity_2m r))
              df in
        if tz_aware (parse_dates df) then Unhandled ValueError
        else
          match to_excel out with
          | Raise e => Unhandled e
          | Ok buf =>
              SendFile
                "application/vnd.openxmlformats-officedocument.spreadsheetml.sheet"
                "weather_last_48h.xlsx" buf
          end
  end.

(** [GET /export/pdf] (app.py:179-277); the chart and the HTML page are
    inside [write_pdf], the two-page fallback inside [PdfPages]. *)
Definition export_pdf (now : datetime) (db : database) : response :=
  match query_last_48h now db with
  | Raise e => Unhandled e
  | Ok df =>
      if empty df then Jsonify (ErrorBody NoData) 400
      else
        let pdf_bytes :=
          match write_pdf now df with
          | Some bytes => bytes
          | None => PdfPages df
          end in
        SendFile "application/pdf" "weather_report.pdf" pdf_bytes
  end.

End App.

(* ================================================================== *)
(** ** Vocabulary of the properties *)

(** Bounded search: [p] holds at [n], [n + 1], ..., [n + fuel - 1]. *)
Fixpoint holds_from (fuel : nat) (n : Z) (p : Z -> bool) : bool :=
  match fuel with
  | O => true
  | S f => p n && holds_from f (n + 1) p
  end.

Definition holds_below (bound : Z) (p : Z -> bool) : bool :=
  holds_from (Z.to_nat bound) 0 p.

(** No two rows of the table agree on the unique index. *)
Fixpoint unique_keys (rows : list weather_row) : bool :=
  match rows with
  | [] => true
  | r :: rest => forallb (fun x => negb (same_key r x)) rest && unique_keys rest
  end.

(** The table row a DataFrame row is written as, when every cell converts
    and neither coordinate is NaN. *)
Definition stored_row (row : df_row) : option weather_row :=
  match df_temperature_2m row, df_relative_humidity_2m row,
        df_latitude row, df_longitude row with
  | PyFloat temp, PyFloat hum, PyFloat (num lat), PyFloat (num lon) =>
      Some (mkRow (Timestamp_strftime (df_timestamp row))
                  (bind_float temp) (bind_float hum)
                  (real_column lat) (real_column lon))
  | _, _, _, _ => None
  end.

Definition storable (row : df_row) : bool :=
  match stored_row row with Some _ => true | None => false end.

Fixpoint stored_rows (df : DataFrame) : list weather_row :=
  match df with
  | [] => []
  | row :: rest =>
      match stored_row row with
      | Some w => w :: stored_rows rest
      | None => stored_rows rest
      end
  end.

Definition measurement (ts : Timestamp) (temp hum : float) (lat lon : real)
  : df_row :=
  mkDf ts (PyFloat temp) (PyFloat hum) (PyFloat (num lat)) (PyFloat (num lon)).

Definition row_of (ts : Timestamp) (temp hum : float) (lat lon : real)
  : weather_row :=
  mkRow (Timestamp_strftime ts) (bind_float temp) (bind_float hum)
        (real_column lat) (real_column lon).

(** The double [-0.0]: sign bit set, every other bit clear. *)
Definition negative_zero : real := mkReal true 0.

(** [y] is what the store gives back for the number [x]: the same number,
    with the same bits unless [x] is the negative zero, which comes back as
    the positive zero. *)
Definition kept (x y : real) : Prop :=
  real_eqb x y = true
  /\ (x <> negative_zero -> y = x)
  /\ (x = negative_zero -> y = mkReal false 0).

(** The cell a reading comes back as: NULL for NaN, else the number kept. *)
Definition kept_reading (f : float) (v : option real) : Prop :=
  match f with
  | nan => v = None
  | num x => exists y, v = Some y /\ kept x y
  end.

(** The text of a stored timestamp is the canonical form of the instant
    [t], a whole number of seconds with a four-digit year. *)
Definition canonical (r : weather_row) (t : Z) : Prop :=
  four_digit_year t = true /\ timestamp r = format_utc t.

(** The tables the program can come to hold: the empty table of [init_db],
    and what a call of [upsert_records] that returned has made of such a
    table, whatever the batch was.  (A call that raises leaves the table as
    it was.) *)
Inductive written_by_upserts : list weather_row -> Prop :=
| written_init : written_by_upserts []
| written_upsert (rows rows' : list weather_row) (df : DataFrame) (n : Z) :
    written_by_upserts rows ->
    upsert_records df (Some rows) = (Ok n, Some rows') ->
    written_by_upserts rows'.

(** The start of the window: [now - 48h], cut to whole seconds by
    [strftime]. *)
Definition window_start (now : datetime) : Z :=
  datetime_second (now - timedelta_hours 48).

(** The replies that §4.2 of the specification calls network failures: the
    request timed out or could not be made, or the status is not 2xx. *)
Definition network_failure (reply : http_reply) : bool :=
  match reply with
  | TimedOut | Unreachable => true
  | Reply status _ => negb ((200 <=? status) && (status <? 300))
  end.

(* ================================================================== *)
(** ** A concrete environment for the examples *)

Fixpoint decimal (s : string) (acc : Z) : option Z :=
  match s with
  | EmptyString => Some acc
  | String c s' =>
      match digit_value c with
      | Some d => decimal s' (acc * 10 + d)
      | None => None
      end
  end.

Definition has_char (s : string) (i : nat) (c : ascii) : bool :=
  match String.get i s with
  | Some x => Ascii.eqb x c
  | None => false
  end.

(** The time format the hourly API answers with, [YYYY-MM-DDTHH:MM], read
    as UTC. *)
Definition iso_minute_to_datetime (s : string) : option Timestamp :=
  if (String.length s =? 16)%nat
     && has_char s 4 "-" && has_char s 7 "-"
     && has_char s 10 "T" && has_char s 13 ":"
  then
    match decimal (substring 0 4 s) 0, decimal (substring 5 2 s) 0,
          decimal (substring 8 2 s) 0, decimal (substring 11 2 s) 0,
          decimal (substring 14 2 s) 0 with
    | Some y, Some m, Some d, Some hh, Some mm =>
        let c := Calendar.mkCivil y m d hh mm 0 in
        if Calendar.valid_civil c
        then Some (Calendar.to_epoch c * 1000000000)
        else None
    | _, _, _, _, _ => None
    end
  else None.

(** Doubles by their bits. *)
Definition f52_5 : real := mkReal false 0x404A400000000000.
Definition f13_4 : real := mkReal false 0x402ACCCCCCCCCCCD.
Definition f21_5 : real := mkReal false 0x4035800000000000.
Definition f20_0 : real := mkReal false 0x4034000000000000.
Definition f19_5 : real := mkReal false 0x4033800000000000.
Definition f60_0 : real := mkReal false 0x404E000000000000.
Definition f65_0 : real := mkReal false 0x4050400000000000.

(** [float] on the query strings of the examples. *)
Definition sample_float_of_str (s : string) : option float :=
  if String.eqb s "52.5" then Some (num f52_5)
  else if String.eqb s "13.4" then Some (num f13_4)
  else if String.eqb s "nan" then Some nan
  else None.

Definition no_bytes {A : Type} (_ : A) : list Byte.byte := [].
Definition no_sheet {A : Type} (_ : A) : result (list Byte.byte) := Ok [].
Definition no_engine (_ : datetime) (_ : list weather_row)
  : option (list Byte.byte) := None.

(** 2023-11-14T22:13:20.5Z. *)
Definition sample_now : datetime := 1700000000500000.

Definition sample_hourly : hourly :=
  mkHourly ["2023-11-14T21:00"; "2023-11-14T20:00"; "2023-11-14T22:00"]
           [JNumber (num f20_0); JNumber (num f19_5); JNull]
           [JNumber (num f60_0); JNumber (num f65_0); JNumber (num f60_0)].

Definition short_hourly : hourly :=
  mkHourly ["2023-11-14T20:00"; "2023-11-14T21:00"; "2023-11-14T22:00"]
           [JNumber (num f20_0); JNumber (num f19_5)]
           [JNumber (num f60_0); JNumber (num f65_0); JNumber (num f60_0)].

Definition at_hour (h : Z) : Timestamp := (1699992000 + h * 3600) * 1000000000.

Definition sample_frame : DataFrame :=
  [ mkDf (at_hour 0) (PyFloat (num f19_5)) (PyFloat (num f65_0))
         (PyFloat (num f52_5)) (PyFloat (num f13_4));
    mkDf (at_hour 1) (PyFloat (num f20_0)) (PyFloat (num f60_0))
         (PyFloat (num f52_5)) (PyFloat (num f13_4));
    mkDf (at_hour 2) (PyFloat nan) (PyFloat (num f60_0))
         (PyFloat (num f52_5)) (PyFloat (num f13_4)) ].

Definition sample_table : list weather_row :=
  [ mkRow "2023-11-14T20:00:00Z" (Some f19_5) (Some f65_0) f52_5 f13_4;
    mkRow "2023-11-14T21:00:00Z" (Some f20_0) (Some f60_0) f52_5 f13_4;
    mkRow "2023-11-14T22:00:00Z" None (Some f60_0) f52_5 f13_4 ].

(** A batch whose second row holds [None] where a float is due. *)
Definition broken_frame : DataFrame :=
  [ mkDf (at_hour 0) (PyFloat (num f19_5)) (PyFloat (num f65_0))
         (PyFloat (num f52_5)) (PyFloat (num f13_4));
    mkDf (at_hour 1) PyNone (PyFloat (num f60_0))
         (PyFloat (num f52_5)) (PyFloat (num f13_4)) ].

(** A second reply: one hour already stored and two new ones. *)
Definition later_hourly : hourly :=
  mkHourly ["2023-11-14T22:00"; "2023-11-14T23:00"; "2023-11-15T00:00"]
           [JNumber (num f21_5); JNumber (num f20_0); JNumber (num f19_5)]
           [JNumber (num f60_0); JNumber (num f60_0); JNumber (num f65_0)].


Definition old_row : weather_row :=
  mkRow "2023-11-07T22:00:00Z" (Some f21_5) (Some f60_0) f52_5 f13_4.

(** A row on the equator with a temperature of zero. *)
Definition zero_row : weather_row :=
  mkRow "2023-11-14T20:00:00Z" (Some (mkReal false 0)) (Some f65_0)
        (mkReal false 0) f13_4.

(** 0999-12-31T23:59:59Z, the second before the years have four digits, and
    a batch that holds it next to an hour of 2023. *)
Definition year_999 : Timestamp := (MIN_SECOND - 1) * 1000000000.

Definition early_frame : DataFrame :=
  [ measurement year_999 (num f19_5) (num f65_0) f52_5 f13_4;
    measurement (at_hour 0) (num f20_0) (num f60_0) f52_5 f13_4 ].

Definition early_table : list weather_row :=
  [ mkRow "999-12-31T23:59:59Z" (Some f19_5) (Some f65_0) f52_5 f13_4;
    mkRow "2023-11-14T20:00:00Z" (Some f20_0) (Some f60_0) f52_5 f13_4 ].

(* ================================================================== *)
(** ** Batches and coordinates *)

(** A row of the table is in conflict with a row of the batch. *)
Definition in_batch (ws : list weather_row) (x : weather_row) : bool :=
  existsb (fun w => same_key w x) ws.

(** What a batch leaves of itself in the table: for each key the last row
    written under it, in the order of these last writes. *)
Fixpoint last_writes (ws : list weather_row) : list weather_row :=
  match ws with
  | [] => []
  | w :: rest =>
      if in_batch rest w then last_writes rest else w :: last_writes rest
  end.

(** The rows of the table at latitude [lat] and longitude [lon]. *)
Definition at_coordinate (lat lon : real) (x : weather_row) : bool :=
  real_eqb lat (latitude x) && real_eqb lon (longitude x).

(* ================================================================== *)
(** * Properties *)

(** ** The calendar *)

Module CalendarFacts.
Import Calendar.

(** The calendar repeats every 400 years, that is every 146097 days. *)
Lemma is_leap_shift (y k : Z) : is_leap (y + 400 * k) = is_leap y.
Proof.
  unfold is_leap.
  replace ((y + 400 * k) mod 4) with (y mod 4)
    by (replace (y + 400 * k) with (y + (100 * k) * 4) by ring;
        now rewrite Z.mod_add).
  replace ((y + 400 * k) mod 100) with (y mod 100)
    by (replace (y + 400 * k) with (y + (4 * k) * 100) by ring;
        now rewrite Z.mod_add).
  replace ((y + 400 * k) mod 400) with (y mod 400)
    by (replace (y + 400 * k) with (y + k * 400) by ring;
        now rewrite Z.mod_add).
  reflexivity.
Qed.

Lemma days_before_year_shift (y k : Z) :
  days_before_year (y + 400 * k) = days_before_year y + 146097 * k.
Proof.
  unfold days_before_year. cbv zeta.
  replace (y + 400 * k - 1) with (y - 1 + 400 * k) by ring.
  replace ((y - 1 + 400 * k) / 4) with ((y - 1) / 4 + 100 * k)
    by (replace (y - 1 + 400 * k) with (y - 1 + (100 * k) * 4) by ring;
        now rewrite Z.div_add).
  replace ((y - 1 + 400 * k) / 100) with ((y - 1) / 100 + 4 * k)
    by (replace (y - 1 + 400 * k) with (y - 1 + (4 * k) * 100) by ring;
        now rewrite Z.div_add).
  replace ((y - 1 + 400 * k) / 400) with ((y - 1) / 400 + k)
    by (replace (y - 1 + 400 * k) with (y - 1 + k * 400) by ring;
        now rewrite Z.div_add).
  ring.
Qed.

(** A year has 365 days, or 366 when it is a leap year. *)
Lemma days_before_year_succ (y : Z) :
  days_before_year (y + 1)
  = days_before_year y + 365 + (if is_leap y then 1 else 0).
Proof.
  unfold days_before_year, is_leap. cbv zeta.
  replace (y + 1 - 1) with y by ring.
  destruct (Z.eqb_spec (y mod 4) 0), (Z.eqb_spec (y mod 100) 0),
    (Z.eqb_spec (y mod 400) 0); cbn [andb orb negb];
    Z.div_mod_to_equations; lia.
Qed.

Lemma days_before_year_mono (y1 y2 : Z) :
  y1 <= y2 -> days_before_year y1 <= days_before_year y2.
Proof.
  unfold days_before_year. cbv zeta. intros H.
  Z.div_mod_to_equations. lia.
Qed.

Ltac month_cases m :=
  assert (m = 1 \/ m = 2 \/ m = 3 \/ m = 4 \/ m = 5 \/ m = 6 \/ m = 7
          \/ m = 8 \/ m = 9 \/ m = 10 \/ m = 11 \/ m = 12) as Hcases by lia;
  repeat (destruct Hcases as [Hcases | Hcases]; [subst m | ]);
  [ .. | subst m ].

Ltac eval_tables :=
  repeat match goal with
         | |- context [table ?t ?m] =>
             let v := eval vm_compute in (table t m) in
             change (table t m) with v
         end.

Ltac by_month y m :=
  month_cases m; try lia; destruct (is_leap y); eval_tables; cbn; lia.

Lemma days_in_month_pos (y m : Z) :
  1 <= m <= 12 -> 28 <= days_in_month y m <= 31.
Proof.
  intros Hm. unfold days_in_month. by_month y m.
Qed.

Lemma days_before_month_next (y m : Z) :
  1 <= m <= 12 ->
  days_before_month y m + days_in_month y m
  = if m =? 12 then year_length y else days_before_month y (m + 1).
Proof.
  intros Hm. unfold days_before_month, days_in_month, year_length.
  by_month y m.
Qed.

Lemma days_before_month_mono (y m1 m2 : Z) :
  1 <= m1 -> m1 < m2 -> m2 <= 12 ->
  days_before_month y m1 + days_in_month y m1 <= days_before_month y m2.
Proof.
  intros H1 H12 H2. unfold days_before_month, days_in_month.
  month_cases m1; month_cases m2; try lia;
    destruct (is_leap y); eval_tables; cbn; lia.
Qed.

Lemma day_of_year_bounds (y m d : Z) :
  1 <= m <= 12 -> 1 <= d <= days_in_month y m ->
  1 <= days_before_month y m + d <= year_length y.
Proof.
  intros Hm Hd.
  pose proof (days_before_month_next y m Hm) as Hn.
  assert (0 <= days_before_month y m).
  { unfold days_before_month. by_month y m. }
  split; [lia|].
  destruct (Z.eqb_spec m 12); [lia|].
  assert (days_before_month y (m + 1) <= year_length y).
  { unfold days_before_month, year_length.
    by_month y m. }
  lia.
Qed.

(** [ymd2ord] is strictly monotone for the lexicographic order on dates. *)
Lemma ymd2ord_compare (y1 m1 d1 y2 m2 d2 : Z) :
  valid_date y1 m1 d1 -> valid_date y2 m2 d2 ->
  (ymd2ord y1 m1 d1 ?= ymd2ord y2 m2 d2)
  = lex (y1 ?= y2) (lex (m1 ?= m2) (d1 ?= d2)).
Proof.
  intros [Hm1 Hd1] [Hm2 Hd2]. unfold ymd2ord, lex.
  pose proof (day_of_year_bounds y1 m1 d1 Hm1 Hd1) as B1.
  pose proof (day_of_year_bounds y2 m2 d2 Hm2 Hd2) as B2.
  destruct (Z.compare_spec y1 y2) as [Hy | Hy | Hy].
  - subst y2.
    destruct (Z.compare_spec m1 m2) as [Hm | Hm | Hm].
    + subst m2. destruct (Z.compare_spec d1 d2); 
        [apply Z.compare_eq_iff | apply Z.compare_lt_iff | apply Z.compare_gt_iff]; lia.
    + apply Z.compare_lt_iff.
      pose proof (days_before_month_mono y1 m1 m2). lia.
    + apply Z.compare_gt_iff.
      pose proof (days_before_month_mono y1 m2 m1). lia.
  - apply Z.compare_lt_iff.
    pose proof (days_before_year_succ y1).
    pose proof (days_before_year_mono (y1 + 1) y2).
    unfold year_length in *. lia.
  - apply Z.compare_gt_iff.
    pose proof (days_before_year_succ y2).
    pose proof (days_before_year_mono (y2 + 1) y1).
    unfold year_length in *. lia.
Qed.

Lemma holds_from_spec (p : Z -> bool) (fuel : nat) :
  forall n, holds_from fuel n p = true ->
  forall k, n <= k < n + Z.of_nat fuel -> p k = true.
Proof.
  induction fuel as [| f IH]; intros n H k Hk.
  - lia.
  - cbn [holds_from] in H. apply andb_true_iff in H as [Hn Hrest].
    destruct (Z.eq_dec k n) as [-> | Hne]; [exact Hn|].
    apply (IH (n + 1) Hrest). lia.
Qed.

Lemma holds_below_spec (p : Z -> bool) (bound k : Z) :
  holds_below bound p = true -> 0 <= k < bound -> p k = true.
Proof.
  intros H Hk. apply (holds_from_spec p _ 0 H). lia.
Qed.

(** Each of the 146097 days of a cycle, by evaluation. *)
Lemma cycle_days_ok : holds_below DI400Y cycle_day_ok = true.
Proof. vm_cast_no_check (eq_refl true). Qed.

Lemma ord2ymd_cycle_spec (n : Z) :
  0 <= n < DI400Y ->
  let '(y, m, d) := ord2ymd_cycle n in
  valid_date y m d /\ ymd2ord y m d = n + 1.
Proof.
  intros Hn.
  pose proof (holds_below_spec cycle_day_ok _ n cycle_days_ok Hn) as H.
  unfold cycle_day_ok in H.
  destruct (ord2ymd_cycle n) as [[y m] d].
  repeat (apply andb_true_iff in H as [H ?]).
  unfold valid_date. lia.
Qed.

Lemma ymd2ord_shift (y m d k : Z) :
  ymd2ord (k * 400 + y) m d = ymd2ord y m d + 146097 * k.
Proof.
  unfold ymd2ord, days_before_month.
  replace (k * 400 + y) with (y + 400 * k) by ring.
  rewrite days_before_year_shift, is_leap_shift. ring.
Qed.

Lemma days_in_month_shift (y m k : Z) :
  days_in_month (k * 400 + y) m = days_in_month y m.
Proof.
  unfold days_in_month.
  replace (k * 400 + y) with (y + 400 * k) by ring.
  now rewrite is_leap_shift.
Qed.

(** [ord2ymd] inverts [ymd2ord] and yields a date of the calendar. *)
Lemma ord2ymd_spec (n : Z) :
  let '(y, m, d) := ord2ymd n in
  valid_date y m d /\ ymd2ord y m d = n.
Proof.
  unfold ord2ymd. cbv zeta.
  pose proof (Z.mod_pos_bound (n - 1) DI400Y eq_refl) as Hr.
  pose proof (ord2ymd_cycle_spec ((n - 1) mod DI400Y) Hr) as H.
  destruct (ord2ymd_cycle ((n - 1) mod DI400Y)) as [[y m] d].
  destruct H as [[Hm Hd] Ho].
  unfold valid_date. rewrite days_in_month_shift, ymd2ord_shift, Ho.
  repeat split; try lia.
  pose proof (Z.div_mod (n - 1) DI400Y ltac:(discriminate)).
  unfold DI400Y in *. lia.
Qed.

Lemma valid_civil_iff (c : civil) :
  valid_civil c = true <->
  valid_date (year c) (month c) (day c)
  /\ 0 <= hour c < 24 /\ 0 <= minute c < 60 /\ 0 <= second c < 60.
Proof.
  unfold valid_civil, valid_date.
  repeat rewrite andb_true_iff.
  repeat rewrite Z.leb_le. repeat rewrite Z.ltb_lt. tauto.
Qed.

(** The seconds of a day split into hour, minute and second. *)
Lemma clock_split (r : Z) :
  0 <= r < 86400 ->
  0 <= r / 3600 < 24 /\ 0 <= r mod 3600 / 60 < 60 /\ 0 <= r mod 60 < 60
  /\ r / 3600 * 3600 + r mod 3600 / 60 * 60 + r mod 60 = r.
Proof. intros Hr. Z.div_mod_to_equations. lia. Qed.

Lemma of_epoch_valid (s : Z) : valid_civil (of_epoch s) = true.
Proof.
  apply valid_civil_iff. unfold of_epoch. cbv zeta.
  pose proof (ord2ymd_spec (s / 86400 + EPOCH_ORDINAL)) as H.
  destruct (ord2ymd (s / 86400 + EPOCH_ORDINAL)) as [[y m] d].
  destruct H as [Hv _]. cbn [year month day hour minute second].
  pose proof (clock_split (s mod 86400)
                (Z.mod_pos_bound s 86400 eq_refl)). tauto.
Qed.

Lemma to_epoch_of_epoch (s : Z) : to_epoch (of_epoch s) = s.
Proof.
  unfold of_epoch, to_epoch. cbv zeta.
  pose proof (ord2ymd_spec (s / 86400 + EPOCH_ORDINAL)) as H.
  destruct (ord2ymd (s / 86400 + EPOCH_ORDINAL)) as [[y m] d].
  destruct H as [_ Ho]. cbn [year month day hour minute second].
  rewrite Ho.
  pose proof (clock_split (s mod 86400)
                (Z.mod_pos_bound s 86400 eq_refl)) as (_ & _ & _ & Hc).
  pose proof (Z.div_mod s 86400 ltac:(discriminate)). lia.
Qed.

Lemma lex_compare_spec (c1 c2 : comparison) (x1 y1 x2 y2 : Z) :
  c1 = (x1 ?= y1) -> c2 = (x2 ?= y2) ->
  forall w, 0 <= x2 < w -> 0 <= y2 < w ->
  lex c1 c2 = (x1 * w + x2 ?= y1 * w + y2).
Proof.
  intros -> -> w Hx Hy. unfold lex. symmetry.
  destruct (Z.compare_spec x1 y1) as [-> | H | H].
  - destruct (Z.compare_spec x2 y2);
      [apply Z.compare_eq_iff | apply Z.compare_lt_iff
       | apply Z.compare_gt_iff]; lia.
  - apply Z.compare_lt_iff. nia.
  - apply Z.compare_gt_iff. nia.
Qed.

Lemma compare_shift (x y k : Z) : (x ?= y) = (x - k ?= y - k).
Proof.
  destruct (Z.compare_spec x y); symmetry;
    [apply Z.compare_eq_iff | apply Z.compare_lt_iff
     | apply Z.compare_gt_iff]; lia.
Qed.

(** On times of the calendar, field order is the order of the instants. *)
Lemma civil_compare_to_epoch (a b : civil) :
  valid_civil a = true -> valid_civil b = true ->
  civil_compare a b = (to_epoch a ?= to_epoch b).
Proof.
  intros Ha Hb.
  apply valid_civil_iff in Ha as (Hda & Hha & Hma & Hsa).
  apply valid_civil_iff in Hb as (Hdb & Hhb & Hmb & Hsb).
  unfold civil_compare, to_epoch.
  pose proof (ymd2ord_compare _ _ _ _ _ _ Hda Hdb) as Hd.
  set (oa := ymd2ord (year a) (month a) (day a)) in *.
  set (ob := ymd2ord (year b) (month b) (day b)) in *.
  replace (lex (year a ?= year b)
             (lex (month a ?= month b)
                (lex (day a ?= day b)
                   (lex (hour a ?= hour b)
                      (lex (minute a ?= minute b) (second a ?= second b))))))
    with (lex (oa ?= ob)
            (lex (hour a ?= hour b)
               (lex (minute a ?= minute b) (second a ?= second b)))).
  2: { rewrite Hd. unfold lex.
       destruct (year a ?= year b), (month a ?= month b), (day a ?= day b);
         reflexivity. }
  assert (Hms : lex (minute a ?= minute b) (second a ?= second b)
                = (minute a * 60 + second a ?= minute b * 60 + second b))
    by (apply lex_compare_spec; auto).
  assert (Hhms : lex (hour a ?= hour b)
                   (lex (minute a ?= minute b) (second a ?= second b))
                 = (hour a * 3600 + (minute a * 60 + second a)
                    ?= hour b * 3600 + (minute b * 60 + second b)))
    by (apply lex_compare_spec; [reflexivity | exact Hms | lia | lia]).
  rewrite (lex_compare_spec _ _ _ _ _ _ (compare_shift oa ob EPOCH_ORDINAL)
             Hhms 86400 ltac:(lia) ltac:(lia)).
  f_equal; ring.
Qed.

Lemma of_epoch_compare (a b : Z) :
  civil_compare (of_epoch a) (of_epoch b) = (a ?= b).
Proof.
  rewrite civil_compare_to_epoch by apply of_epoch_valid.
  now rewrite !to_epoch_of_epoch.
Qed.

Lemma to_epoch_year_bounds (c : civil) :
  valid_civil c = true ->
  (days_before_year (year c) + 1 - EPOCH_ORDINAL) * 86400 <= to_epoch c
  /\ to_epoch c < (days_before_year (year c + 1) + 1 - EPOCH_ORDINAL) * 86400.
Proof.
  intros Hc. apply valid_civil_iff in Hc as ([Hm Hd] & Hh & Hmi & Hs).
  pose proof (day_of_year_bounds _ _ _ Hm Hd) as B.
  pose proof (days_before_year_succ (year c)) as Hy.
  unfold to_epoch, ymd2ord, year_length in *. lia.
Qed.

End CalendarFacts.

Import Calendar CalendarFacts.

(** ** Canonical timestamps *)

Lemma four_digit_year_spec (s : Z) :
  four_digit_year s = true ->
  1000 <= year (of_epoch s) <= 9999.
Proof.
  unfold four_digit_year, MIN_SECOND, MAX_SECOND. intros H.
  apply andb_true_iff in H as [Hlo Hhi].
  apply Z.leb_le in Hlo. apply Z.leb_le in Hhi.
  pose proof (to_epoch_year_bounds _ (of_epoch_valid s)) as [B1 B2].
  rewrite to_epoch_of_epoch in B1, B2.
  split.
  - destruct (Z_lt_le_dec (year (of_epoch s)) 1000) as [Hlt | ]; [|lia].
    pose proof (days_before_year_mono (year (of_epoch s) + 1) 1000
                  ltac:(lia)) as Hm.
    change (days_before_year 1000) with 364877 in Hm.
    unfold EPOCH_ORDINAL in *. lia.
  - destruct (Z_lt_le_dec 9999 (year (of_epoch s))) as [Hlt | ]; [|lia].
    pose proof (days_before_year_mono 10000 (year (of_epoch s))
                  ltac:(lia)) as Hm.
    change (days_before_year 10000) with 3652059 in Hm.
    unfold EPOCH_ORDINAL in *. lia.
Qed.

(** *** Text order *)

Lemma text_compare_refl (s : string) : text_compare s s = Eq.
Proof.
  induction s as [| c s IH]; [reflexivity|].
  cbn [text_compare]. now rewrite N.compare_refl.
Qed.

Lemma text_compare_eq (a b : string) : text_compare a b = Eq <-> a = b.
Proof.
  split; [| intros ->; apply text_compare_refl].
  revert b. induction a as [| x a IH]; destruct b as [| y b];
    cbn [text_compare]; try discriminate; [reflexivity|].
  destruct (N.compare_spec (N_of_ascii x) (N_of_ascii y)) as [E | |];
    try discriminate.
  intros H. apply IH in H. subst b.
  f_equal. rewrite <- (ascii_N_embedding x), <- (ascii_N_embedding y).
  now rewrite E.
Qed.

Lemma text_compare_antisym (a b : string) :
  text_compare b a = CompOpp (text_compare a b).
Proof.
  revert b. induction a as [| x a IH]; destruct b as [| y b];
    cbn [text_compare]; try reflexivity.
  rewrite (N.compare_antisym (N_of_ascii x) (N_of_ascii y)).
  destruct (N_of_ascii x ?= N_of_ascii y)%N; cbn [CompOpp]; auto.
Qed.

Lemma text_compare_cons (x y : ascii) (a b : string) :
  text_compare (String x a) (String y b)
  = lex (N_of_ascii x ?= N_of_ascii y)%N (text_compare a b).
Proof.
  cbn [text_compare]. now destruct (N_of_ascii x ?= N_of_ascii y)%N.
Qed.

Lemma text_compare_app (a b s t : string) :
  String.length a = String.length b ->
  text_compare (a ++ s) (b ++ t) = lex (text_compare a b) (text_compare s t).
Proof.
  revert b. induction a as [| x a IH]; destruct b as [| y b];
    cbn [String.length]; try discriminate; intros H.
  - reflexivity.
  - cbn [append text_compare].
    destruct (N_of_ascii x ?= N_of_ascii y)%N; try reflexivity.
    apply IH. now injection H.
Qed.

Lemma zero_pad_length (w : nat) (n : Z) : String.length (zero_pad w n) = w.
Proof. induction w; cbn [zero_pad String.length]; congruence. Qed.

Lemma digit_compare (x y : Z) :
  0 <= x < 10 -> 0 <= y < 10 ->
  (N_of_ascii (digit x) ?= N_of_ascii (digit y))%N = (x ?= y).
Proof.
  intros Hx Hy. unfold digit.
  rewrite !N_ascii_embedding by lia.
  destruct (Z.compare_spec x y);
    [apply N.compare_eq_iff | apply N.compare_lt_iff
     | apply N.compare_gt_iff]; lia.
Qed.

(** Zero-padded fields of one width compare as their numbers do. *)
Lemma zero_pad_compare (w : nat) (n m : Z) :
  text_compare (zero_pad w n) (zero_pad w m)
  = (n mod 10 ^ Z.of_nat w ?= m mod 10 ^ Z.of_nat w).
Proof.
  induction w as [| w IH].
  - cbn. now rewrite !Z.mod_1_r.
  - cbn [zero_pad]. rewrite text_compare_cons.
    assert (Hp : 0 < 10 ^ Z.of_nat w) by (apply Z.pow_pos_nonneg; lia).
    rewrite digit_compare by (apply Z.mod_pos_bound; lia).
    rewrite IH.
    replace (10 ^ Z.of_nat (S w)) with (10 ^ Z.of_nat w * 10)
      by (rewrite Nat2Z.inj_succ, Z.pow_succ_r by lia; ring).
    rewrite !Z.rem_mul_r by lia.
    rewrite (lex_compare_spec _ _ _ _ _ _ eq_refl eq_refl (10 ^ Z.of_nat w))
      by (apply Z.mod_pos_bound; lia).
    f_equal; ring.
Qed.

Lemma zero_pad_compare_small (w : nat) (n m : Z) :
  0 <= n < 10 ^ Z.of_nat w -> 0 <= m < 10 ^ Z.of_nat w ->
  text_compare (zero_pad w n) (zero_pad w m) = (n ?= m).
Proof.
  intros Hn Hm. rewrite zero_pad_compare.
  now rewrite !Z.mod_small.
Qed.

Lemma text_compare_sep (c : ascii) (s t : string) :
  text_compare (String c EmptyString ++ s) (String c EmptyString ++ t)
  = text_compare s t.
Proof.
  cbn [append]. rewrite text_compare_cons. now rewrite N.compare_refl.
Qed.

(** A year of four digits is written with all four. *)
Lemma year_text_four_digits (y : Z) : 1000 <= y -> year_text y = zero_pad 4 y.
Proof.
  intros H. unfold year_text.
  destruct (Z.ltb_spec y 10); [lia|].
  destruct (Z.ltb_spec y 100); [lia|].
  destruct (Z.ltb_spec y 1000); [lia|reflexivity].
Qed.

Lemma year_text_length (y : Z) :
  (1 <= String.length (year_text y) <= 4)%nat.
Proof.
  unfold year_text.
  destruct (y <? 10); [|destruct (y <? 100); [|destruct (y <? 1000)]];
    rewrite zero_pad_length; lia.
Qed.

Lemma format_iso_compare (a b : civil) :
  1000 <= year a < 10000 -> 1000 <= year b < 10000 ->
  valid_civil a = true -> valid_civil b = true ->
  text_compare (format_iso a) (format_iso b) = civil_compare a b.
Proof.
  intros Hya Hyb Ha Hb.
  apply valid_civil_iff in Ha as ([Hma Hda] & Hha & Hmia & Hsa).
  apply valid_civil_iff in Hb as ([Hmb Hdb] & Hhb & Hmib & Hsb).
  pose proof (days_in_month_pos (year a) (month a) Hma).
  pose proof (days_in_month_pos (year b) (month b) Hmb).
  unfold format_iso, civil_compare.
  rewrite !year_text_four_digits by lia.
  repeat (rewrite text_compare_app by (now rewrite !zero_pad_length);
          rewrite zero_pad_compare_small by (cbn; lia);
          try rewrite text_compare_sep).
  rewrite text_compare_refl.
  now destruct (second a ?= second b).
Qed.

(** The canonical texts of two instants compare as the instants do. *)
Theorem format_utc_compare (a b : Z) :
  four_digit_year a = true -> four_digit_year b = true ->
  text_compare (format_utc a) (format_utc b) = (a ?= b).
Proof.
  intros Ha Hb. unfold format_utc.
  apply four_digit_year_spec in Ha, Hb.
  rewrite format_iso_compare by (try apply of_epoch_valid; lia).
  apply of_epoch_compare.
Qed.

Lemma append_length (a b : string) :
  String.length (a ++ b) = (String.length a + String.length b)%nat.
Proof.
  induction a as [| c a IH]; cbn [append String.length plus];
    [reflexivity | now rewrite IH].
Qed.

(** With a four-digit year the text has 20 bytes; it never has more, and
    has fewer when the year is before 1000. *)
Lemma format_utc_length (s : Z) :
  four_digit_year s = true -> String.length (format_utc s) = 20%nat.
Proof.
  intros H. apply four_digit_year_spec in H.
  unfold format_utc, format_iso.
  rewrite year_text_four_digits by lia.
  repeat rewrite append_length. now rewrite !zero_pad_length.
Qed.

Lemma format_utc_length_le (s : Z) :
  (17 <= String.length (format_utc s) <= 20)%nat.
Proof.
  unfold format_utc, format_iso.
  pose proof (year_text_length (year (of_epoch s))) as H.
  repeat rewrite append_length. rewrite !zero_pad_length.
  cbn [String.length]. lia.
Qed.

(** ** The store and the application *)

(** *** Sorting *)

Section Sorting.

Context {A : Type} (le : A -> A -> bool).

Hypothesis le_total : forall a b, le a b = false -> le b a = true.
Hypothesis le_trans :
  forall a b c, le a b = true -> le b c = true -> le a c = true.

Let R (a b : A) : Prop := le a b = true.

Lemma insert_by_perm (x : A) (l : list A) :
  Permutation (insert_by le x l) (x :: l).
Proof.
  induction l as [| y l IH]; cbn [insert_by]; [reflexivity|].
  destruct (le x y); [reflexivity|].
  rewrite IH. apply perm_swap.
Qed.

Lemma sort_by_perm (l : list A) : Permutation (sort_by le l) l.
Proof.
  induction l as [| x l IH]; cbn [sort_by]; [reflexivity|].
  rewrite insert_by_perm. now constructor.
Qed.

Lemma insert_by_sorted (x : A) (l : list A) :
  StronglySorted R l -> StronglySorted R (insert_by le x l).
Proof.
  induction 1 as [| y l Hl IH Hy]; cbn [insert_by].
  - repeat constructor.
  - destruct (le x y) eqn:Hxy.
    + constructor; [now constructor|].
      constructor; [exact Hxy|].
      eapply Forall_impl; [| exact Hy].
      intros z Hz. exact (le_trans _ _ _ Hxy Hz).
    + constructor; [exact IH|].
      apply (Permutation_Forall (x := x :: l)).
      * symmetry. apply insert_by_perm.
      * constructor; [exact (le_total _ _ Hxy) | exact Hy].
Qed.

Lemma sort_by_sorted (l : list A) : StronglySorted R (sort_by le l).
Proof.
  induction l as [| x l IH]; cbn [sort_by]; [constructor|].
  now apply insert_by_sorted.
Qed.

End Sorting.

Lemma text_leb_total (a b : string) : text_leb a b = false -> text_leb b a = true.
Proof.
  unfold text_leb. rewrite (text_compare_antisym a b).
  now destruct (text_compare a b).
Qed.

Lemma text_compare_lt_trans (a b c : string) :
  text_compare a b = Lt -> text_compare b c = Lt -> text_compare a c = Lt.
Proof.
  revert b c. induction a as [| x a IH]; destruct b as [| y b];
    destruct c as [| z c]; cbn [text_compare]; try discriminate; auto.
  destruct (N.compare_spec (N_of_ascii x) (N_of_ascii y)) as [E1 | L1 | G1];
    destruct (N.compare_spec (N_of_ascii y) (N_of_ascii z)) as [E2 | L2 | G2];
    try discriminate; intros H1 H2.
  - rewrite E1, E2, N.compare_refl. eauto.
  - rewrite E1. now apply N.compare_lt_iff in L2 as ->.
  - rewrite <- E2. now apply N.compare_lt_iff in L1 as ->.
  - assert (L : (N_of_ascii x < N_of_ascii z)%N) by lia.
    now apply N.compare_lt_iff in L as ->.
Qed.

Lemma text_leb_trans (a b c : string) :
  text_leb a b = true -> text_leb b c = true -> text_leb a c = true.
Proof.
  unfold text_leb.
  destruct (text_compare a b) eqn:Hab; try discriminate;
    destruct (text_compare b c) eqn:Hbc; try discriminate; intros _ _.
  - apply text_compare_eq in Hab, Hbc. subst. now rewrite text_compare_refl.
  - apply text_compare_eq in Hab. subst. now rewrite Hbc.
  - apply text_compare_eq in Hbc. subst. now rewrite Hab.
  - now rewrite (text_compare_lt_trans _ _ _ Hab Hbc).
Qed.

(** *** Keys *)

Lemma real_eqb_refl (a : real) : real_eqb a a = true.
Proof.
  unfold real_eqb. rewrite Bool.eqb_reflx, N.eqb_refl.
  now rewrite orb_true_r.
Qed.

Lemma real_eqb_sym (a b : real) : real_eqb a b = real_eqb b a.
Proof.
  unfold real_eqb.
  rewrite (andb_comm (magnitude a =? 0)%N).
  rewrite (N.eqb_sym (magnitude a) (magnitude b)).
  now destruct (negative a), (negative b).
Qed.

Lemma real_eqb_trans (a b c : real) :
  real_eqb a b = true -> real_eqb b c = true -> real_eqb a c = true.
Proof.
  unfold real_eqb. intros H1 H2.
  apply orb_true_iff in H1, H2. apply orb_true_iff.
  rewrite !andb_true_iff, !N.eqb_eq, !Bool.eqb_true_iff in *.
  destruct H1 as [[? ?] | [? ?]], H2 as [[? ?] | [? ?]];
    (left; split; congruence) || (right; split; congruence).
Qed.

Lemma text_eqb_eq (a b : string) : text_eqb a b = true <-> a = b.
Proof.
  unfold text_eqb. rewrite <- text_compare_eq.
  destruct (text_compare a b); split; congruence.
Qed.

Lemma text_eqb_refl (a : string) : text_eqb a a = true.
Proof. now apply text_eqb_eq. Qed.

Lemma same_key_refl (r : weather_row) : same_key r r = true.
Proof.
  unfold same_key. now rewrite text_eqb_refl, !real_eqb_refl.
Qed.

Lemma same_key_sym (a b : weather_row) : same_key a b = same_key b a.
Proof.
  unfold same_key.
  rewrite (real_eqb_sym (latitude a)), (real_eqb_sym (longitude a)).
  f_equal. f_equal.
  destruct (text_eqb a.(timestamp) b.(timestamp)) eqn:E.
  - apply text_eqb_eq in E. rewrite E. symmetry. apply text_eqb_refl.
  - destruct (text_eqb b.(timestamp) a.(timestamp)) eqn:E'; [|reflexivity].
    apply text_eqb_eq in E'. rewrite E', text_eqb_refl in E. discriminate.
Qed.

Lemma same_key_trans (a b c : weather_row) :
  same_key a b = true -> same_key b c = true -> same_key a c = true.
Proof.
  unfold same_key. rewrite !andb_true_iff.
  intros [[T1 A1] O1] [[T2 A2] O2].
  apply text_eqb_eq in T1, T2.
  repeat split.
  - apply text_eqb_eq. congruence.
  - eapply real_eqb_trans; eauto.
  - eapply real_eqb_trans; eauto.
Qed.

(** *** INSERT OR REPLACE *)

Lemma filter_none {A : Type} (p : A -> bool) (l : list A) :
  (forall x, In x l -> p x = false) -> filter p l = [].
Proof.
  induction l as [| a l IH]; cbn [filter]; intros H; [reflexivity|].
  rewrite (H a (or_introl eq_refl)). apply IH. intros x Hx. apply H. now right.
Qed.

(** After the statement exactly one row carries the key of the new row:
    the new row itself. *)
Lemma replace_into_key (rows : list weather_row) (r k : weather_row) :
  same_key r k = true ->
  filter (same_key k) (replace_into rows r) = [r].
Proof.
  intros Hk. unfold replace_into. rewrite filter_app.
  rewrite filter_none.
  - cbn [filter app]. now rewrite same_key_sym, Hk.
  - intros x Hx. apply filter_In in Hx as [_ Hx].
    apply negb_true_iff in Hx.
    destruct (same_key k x) eqn:E; [|reflexivity].
    now rewrite (same_key_trans _ _ _ Hk E) in Hx.
Qed.

(** Rows under other keys are left as they were, in their order. *)
Lemma replace_into_other (rows : list weather_row) (r k : weather_row) :
  same_key r k = false ->
  filter (same_key k) (replace_into rows r) = filter (same_key k) rows.
Proof.
  intros Hk. unfold replace_into. rewrite filter_app. cbn [filter].
  rewrite (same_key_sym k r), Hk, app_nil_r.
  induction rows as [| x rows IH]; cbn [filter]; [reflexivity|].
  destruct (same_key r x) eqn:Erx; cbn [negb filter].
  - destruct (same_key k x) eqn:Ekx; [|exact IH].
    rewrite (same_key_sym k x) in Ekx.
    now rewrite (same_key_trans _ _ _ Erx Ekx) in Hk.
  - destruct (same_key k x); [now rewrite IH | exact IH].
Qed.

Lemma unique_keys_filter (p : weather_row -> bool) (rows : list weather_row) :
  unique_keys rows = true -> unique_keys (filter p rows) = true.
Proof.
  induction rows as [| x rows IH]; cbn [unique_keys filter]; [easy|].
  intros H. apply andb_true_iff in H as [Hx Hr].
  destruct (p x); [|now apply IH].
  cbn [unique_keys]. rewrite (IH Hr), andb_true_r.
  apply forallb_forall. intros y Hy. apply filter_In in Hy as [Hy _].
  exact (proj1 (forallb_forall _ _) Hx y Hy).
Qed.

Lemma unique_keys_app_one (rows : list weather_row) (r : weather_row) :
  unique_keys rows = true ->
  (forall x, In x rows -> same_key x r = false) ->
  unique_keys (rows ++ [r]) = true.
Proof.
  induction rows as [| x rows IH]; cbn [unique_keys app]; [easy|].
  intros H Hr. apply andb_true_iff in H as [Hx Hrows].
  rewrite IH by (auto; intros; apply Hr; now right).
  rewrite andb_true_r, forallb_app. cbn [forallb].
  rewrite Hx, (Hr x (or_introl eq_refl)). reflexivity.
Qed.

Lemma replace_into_unique (rows : list weather_row) (r : weather_row) :
  unique_keys rows = true -> unique_keys (replace_into rows r) = true.
Proof.
  intros H. unfold replace_into. apply unique_keys_app_one.
  - now apply unique_keys_filter.
  - intros x Hx. apply filter_In in Hx as [_ Hx].
    apply negb_true_iff in Hx. now rewrite same_key_sym.
Qed.

(** *** The upsert loop *)

Lemma upsert_row_stored (row : df_row) (w : weather_row)
  (c : connection) (rows : list weather_row) :
  stored_row row = Some w -> current c = Some rows ->
  upsert_row row c
  = (Ok tt, mkConn (committed c) (Some (replace_into rows w))).
Proof.
  unfold stored_row, upsert_row, bind, lift, execute_insert_or_replace.
  intros Hw Hc.
  destruct (df_temperature_2m row) as [temp|]; [|discriminate].
  destruct (df_relative_humidity_2m row) as [hum|]; [|discriminate].
  destruct (df_latitude row) as [[|lat]|]; try discriminate.
  destruct (df_longitude row) as [[|lon]|]; try discriminate.
  injection Hw as <-. cbn [py_float]. rewrite Hc. reflexivity.
Qed.

(** A row that raises leaves the connection as it found it. *)
Lemma upsert_row_raises (row : df_row) (c c' : connection) (e : exn) :
  upsert_row row c = (Raise e, c') -> c' = c.
Proof.
  unfold upsert_row, bind, lift, execute_insert_or_replace.
  destruct (py_float (df_temperature_2m row)); [|now intros [= _ <-]].
  destruct (py_float (df_relative_humidity_2m row)); [|now intros [= _ <-]].
  destruct (py_float (df_latitude row)) as [lat|]; [|now intros [= _ <-]].
  destruct (py_float (df_longitude row)) as [lon|]; [|now intros [= _ <-]].
  destruct (current c); [|now intros [= _ <-]].
  destruct (bind_float lat), (bind_float lon);
    try discriminate; now intros [= _ <-].
Qed.

(** No statement of the loop touches what has been committed. *)
Lemma upsert_row_committed (row : df_row) (c c' : connection)
  (r : result unit) :
  upsert_row row c = (r, c') -> committed c' = committed c.
Proof.
  destruct r as [[] | e].
  - unfold upsert_row, bind, lift, execute_insert_or_replace.
    destruct (py_float (df_temperature_2m row)); [|discriminate].
    destruct (py_float (df_relative_humidity_2m row)); [|discriminate].
    destruct (py_float (df_latitude row)) as [lat|]; [|discriminate].
    destruct (py_float (df_longitude row)) as [lon|]; [|discriminate].
    destruct (current c); [|discriminate].
    destruct (bind_float lat), (bind_float lon);
      try discriminate; now intros [= <-].
  - intros H. now rewrite (upsert_row_raises _ _ _ _ H).
Qed.

Lemma upsert_loop_committed (df : DataFrame) :
  forall (n : Z) (c c' : connection) (r : result Z),
  upsert_loop df n c = (r, c') -> committed c' = committed c.
Proof.
  induction df as [| row df IH]; cbn [upsert_loop]; intros n c c' r.
  - unfold ret. now intros [= _ <-].
  - unfold bind. destruct (upsert_row row c) as [[[]|e] c1] eqn:Hrow.
    + intros H. rewrite (IH _ _ _ _ H).
      exact (upsert_row_committed _ _ _ _ Hrow).
    + intros [= _ <-]. exact (upsert_row_committed _ _ _ _ Hrow).
Qed.

Lemma upsert_loop_stored (df : DataFrame) :
  forall (n : Z) (c : connection) (rows : list weather_row),
  forallb storable df = true -> current c = Some rows ->
  upsert_loop df n c
  = (Ok (n + Z.of_nat (List.length df)),
     mkConn (committed c)
       (Some (fold_left replace_into (stored_rows df) rows))).
Proof.
  induction df as [| row df IH]; intros n c rows Hdf Hc.
  - cbn. unfold ret. rewrite Z.add_0_r, <- Hc. now destruct c.
  - cbn [forallb] in Hdf. apply andb_true_iff in Hdf as [Hrow Hdf].
    unfold storable in Hrow.
    destruct (stored_row row) as [w|] eqn:Hw; [|discriminate].
    cbn [upsert_loop stored_rows]. rewrite Hw. unfold bind.
    rewrite (upsert_row_stored _ _ _ _ Hw Hc).
    rewrite (IH (n + 1)
               (mkConn (committed c) (Some (replace_into rows w)))
               (replace_into rows w) Hdf eq_refl).
    cbn [committed fold_left List.length].
    do 2 f_equal. lia.
Qed.

(** The result of a whole call on a table that exists. *)
Lemma upsert_records_stored (df : DataFrame) (rows : list weather_row) :
  forallb storable df = true ->
  upsert_records df (Some rows)
  = (Ok (Z.of_nat (List.length df)),
     Some (fold_left replace_into (stored_rows df) rows)).
Proof.
  intros Hdf. unfold upsert_records, with_conn, bind.
  rewrite (upsert_loop_stored df 0 (get_conn (Some rows)) rows Hdf eq_refl).
  reflexivity.
Qed.

Lemma upsert_one (rows : list weather_row) ts temp hum lat lon :
  upsert_records [measurement ts temp hum lat lon] (Some rows)
  = (Ok 1, Some (replace_into rows (row_of ts temp hum lat lon))).
Proof.
  rewrite upsert_records_stored by reflexivity. reflexivity.
Qed.

(** What a row that went through has done. *)
Lemma upsert_row_returns (row : df_row) (c c' : connection) :
  upsert_row row c = (Ok tt, c') ->
  exists rows w,
    current c = Some rows /\ stored_row row = Some w
    /\ c' = mkConn (committed c) (Some (replace_into rows w)).
Proof.
  unfold upsert_row, stored_row, bind, lift, execute_insert_or_replace.
  destruct (df_temperature_2m row) as [temp|]; [|discriminate].
  destruct (df_relative_humidity_2m row) as [hum|]; [|discriminate].
  destruct (df_latitude row) as [lat|]; [|discriminate].
  destruct (df_longitude row) as [lon|]; [|discriminate].
  cbn [py_float].
  destruct (current c) as [rows|]; [|discriminate].
  destruct lat as [|la], lon as [|lo]; cbn [bind_float]; try discriminate.
  intros [= <-].
  now exists rows, (mkRow (Timestamp_strftime (df_timestamp row))
                          (bind_float temp) (bind_float hum)
                          (real_column la) (real_column lo)).
Qed.

(** What a loop that went through has done: every row converted, the
    counter moved by the length of the batch, and the connection holds the
    table with the rows replaced into it one after the other. *)
Lemma upsert_loop_returns (df : DataFrame) :
  forall (n m : Z) (c c' : connection),
  upsert_loop df n c = (Ok m, c') ->
  forallb storable df = true
  /\ m = n + Z.of_nat (List.length df)
  /\ committed c' = committed c
  /\ current c'
     = option_map (fold_left replace_into (stored_rows df)) (current c).
Proof.
  induction df as [| row df IH]; cbn [upsert_loop]; intros n m c c'.
  - unfold ret. intros [= <- <-]. cbn. rewrite Z.add_0_r.
    now destruct (current c).
  - unfold bind. destruct (upsert_row row c) as [[[]|e] c1] eqn:Hrow;
      [|discriminate].
    intros Hloop.
    apply upsert_row_returns in Hrow as (rows & w & Hc & Hw & ->).
    apply IH in Hloop as (Hdf & -> & Hcm & Hcur).
    cbn [forallb stored_rows List.length]. unfold storable at 1.
    rewrite Hw, Hdf, Hcm, Hcur, Hc. cbn [committed current option_map fold_left].
    repeat split. lia.
Qed.

Lemma upsert_records_returns (df : DataFrame) (db db' : database) (n : Z) :
  upsert_records df db = (Ok n, db') ->
  forallb storable df = true
  /\ n = Z.of_nat (List.length df)
  /\ db' = option_map (fold_left replace_into (stored_rows df)) db.
Proof.
  unfold upsert_records, with_conn, bind.
  destruct (upsert_loop df 0 (get_conn db)) as [[m|e] c] eqn:Hloop;
    [|discriminate].
  cbn. intros [= <- <-].
  apply upsert_loop_returns in Hloop as (Hdf & -> & _ & Hcur).
  now rewrite Hcur.
Qed.

Lemma fold_replace_unique (ws rows : list weather_row) :
  unique_keys rows = true ->
  unique_keys (fold_left replace_into ws rows) = true.
Proof.
  revert rows. induction ws as [| w ws IH]; cbn [fold_left]; [easy|].
  intros rows H. apply IH. now apply replace_into_unique.
Qed.

Lemma fold_replace_Forall (P : weather_row -> Prop)
  (ws rows : list weather_row) :
  Forall P ws -> Forall P rows -> Forall P (fold_left replace_into ws rows).
Proof.
  revert rows. induction ws as [| w ws IH]; cbn [fold_left]; [easy|].
  intros rows Hws Hrows. inversion Hws as [| ? ? Hw Hws']; subst.
  apply IH; [exact Hws'|].
  unfold replace_into. apply Forall_app. split.
  - apply Forall_forall. intros x Hx. apply filter_In in Hx as [Hx _].
    exact (proj1 (Forall_forall _ _) Hrows x Hx).
  - now constructor.
Qed.

(** Every call of [upsert_records], whatever the batch and however it
    ends, keeps the keys of the table unique. *)
Lemma upsert_records_unique (df : DataFrame) (rows : list weather_row)
  (r : result Z) (db' : database) :
  unique_keys rows = true ->
  upsert_records df (Some rows) = (r, db') ->
  exists rows', db' = Some rows' /\ unique_keys rows' = true.
Proof.
  intros Hu H. destruct r as [n | e].
  - apply upsert_records_returns in H as (_ & _ & ->).
    eexists. split; [reflexivity|]. now apply fold_replace_unique.
  - unfold upsert_records, with_conn, bind in H.
    destruct (upsert_loop df 0 (get_conn (Some rows))) as [[m|e'] c] eqn:Hloop;
      [discriminate|].
    injection H as _ <-. exists rows. split; [|exact Hu].
    exact (upsert_loop_committed _ _ _ _ _ Hloop).
Qed.

(** C2.  Upserting a measurement twice, the second time with whatever
    readings, leaves exactly one row under its key (timestamp, latitude,
    longitude), and that row is the one of the second write; each of the two
    upserts, and every call of [upsert_records] on any batch, keeps the keys
    of the table unique. *)
Theorem upsert_last_write_wins
  (rows : list weather_row) (ts : Timestamp)
  (temp1 hum1 temp2 hum2 : float) (lat lon : real) :
  exists rows1 rows2,
    upsert_records [measurement ts temp1 hum1 lat lon] (Some rows)
    = (Ok 1, Some rows1)
    /\ upsert_records [measurement ts temp2 hum2 lat lon] (Some rows1)
       = (Ok 1, Some rows2)
    /\ filter (same_key (row_of ts temp2 hum2 lat lon)) rows2
       = [row_of ts temp2 hum2 lat lon]
    /\ (unique_keys rows = true ->
        unique_keys rows1 = true /\ unique_keys rows2 = true)
    /\ (forall df outcome db',
          unique_keys rows = true ->
          upsert_records df (Some rows) = (outcome, db') ->
          exists rows', db' = Some rows' /\ unique_keys rows' = true).
Proof.
  exists (replace_into rows (row_of ts temp1 hum1 lat lon)).
  eexists. split; [apply upsert_one|]. split; [apply upsert_one|].
  split; [|split].
  - apply replace_into_key. apply same_key_refl.
  - intros Hu. split; repeat apply replace_into_unique; exact Hu.
  - intros df outcome db' Hu H.
    exact (upsert_records_unique df rows outcome db' Hu H).
Qed.

(** C7.  On a batch whose rows all convert, [upsert_records] returns the
    length of the batch, whatever the table held before and whether or not
    a stored value changed; and no call returns any other count. *)
Theorem upsert_records_counts_rows
  (df : DataFrame) (rows : list weather_row) :
  forallb storable df = true ->
  (exists db',
     upsert_records df (Some rows) = (Ok (Z.of_nat (List.length df)), db'))
  /\ (forall db n db',
        upsert_records df db = (Ok n, db') -> n = Z.of_nat (List.length df)).
Proof.
  intros Hdf. split.
  - eexists. now apply upsert_records_stored.
  - intros db n db' H. now apply upsert_records_returns in H.
Qed.

(** C9.  A call of [upsert_records] that raises leaves the database as it
    was before the call: the rows written before the failing one are rolled
    back with the transaction. *)
Theorem upsert_records_all_or_nothing
  (df : DataFrame) (db db' : database) (e : exn) :
  upsert_records df db = (Raise e, db') -> db' = db.
Proof.
  unfold upsert_records, with_conn, bind.
  destruct (upsert_loop df 0 (get_conn db)) as [[n|e'] c] eqn:Hloop.
  - cbn. discriminate.
  - intros [= _ <-]. cbn [conn_rollback snd committed].
    exact (upsert_loop_committed _ _ _ _ _ Hloop).
Qed.

(** *** The window query *)

Lemma timestamp_leb_total (a b : weather_row) :
  timestamp_leb a b = false -> timestamp_leb b a = true.
Proof. apply text_leb_total. Qed.

Lemma timestamp_leb_trans (a b c : weather_row) :
  timestamp_leb a b = true -> timestamp_leb b c = true ->
  timestamp_leb a c = true.
Proof. apply text_leb_trans. Qed.

Lemma select_since_perm (cutoff : string) (rows : list weather_row) :
  Permutation (select_since cutoff rows)
    (filter (fun r => text_leb cutoff (timestamp r)) rows).
Proof. apply sort_by_perm. Qed.

Lemma select_since_sorted (cutoff : string) (rows : list weather_row) :
  StronglySorted (fun a b => timestamp_leb a b = true)
    (select_since cutoff rows).
Proof.
  apply sort_by_sorted; [apply timestamp_leb_total | apply timestamp_leb_trans].
Qed.

Lemma select_since_In (cutoff : string) (rows : list weather_row)
  (r : weather_row) :
  In r (select_since cutoff rows)
  <-> In r rows /\ text_leb cutoff (timestamp r) = true.
Proof.
  rewrite <- (filter_In (fun r => text_leb cutoff (timestamp r))).
  split; apply Permutation_in; [| symmetry]; apply select_since_perm.
Qed.

Lemma text_leb_format_utc (a b : Z) :
  four_digit_year a = true -> four_digit_year b = true ->
  text_leb (format_utc a) (format_utc b) = (a <=? b).
Proof.
  intros Ha Hb. unfold text_leb, Z.leb.
  now rewrite format_utc_compare.
Qed.


(** What a REAL column keeps of a number: its value, and its bits unless it
    is the negative zero. *)
Lemma real_column_kept (x : real) : kept x (real_column x).
Proof.
  unfold kept, real_column, real_eqb, negative_zero.
  destruct x as [s m]. cbn [negative magnitude].
  destruct (N.eqb_spec m 0) as [-> | Hm].
  - split; [reflexivity|]. split; [|reflexivity].
    destruct s; [intros H; now contradiction H | reflexivity].
  - cbn [andb orb]. rewrite N.eqb_refl, eqb_reflx.
    split; [reflexivity|]. split; [reflexivity|].
    intros [= _ E]. now contradiction Hm.
Qed.

Lemma bind_float_kept (f : float) : kept_reading f (bind_float f).
Proof.
  destruct f as [| x]; cbn [kept_reading bind_float]; [reflexivity|].
  exists (real_column x). split; [reflexivity | apply real_column_kept].
Qed.

(** C6, as amended.  A measurement whose timestamp is not before the start
    of the window is found by the query right after its upsert, once, with
    its temperature, humidity, latitude and longitude numerically equal to
    the upserted ones: a number comes back with the bits it had, except the
    negative zero, which comes back as the positive zero; a NaN reading comes
    back as NULL. *)
Theorem upsert_then_query_round_trip
  (rows : list weather_row) (now : datetime) (ts : Timestamp)
  (temp hum : float) (lat lon : real) :
  four_digit_year (Timestamp_second ts) = true ->
  four_digit_year (window_start now) = true ->
  window_start now <= Timestamp_second ts ->
  exists rows' result r,
    upsert_records [measurement ts temp hum lat lon] (Some rows)
    = (Ok 1, Some rows')
    /\ query_last_48h now (Some rows') = Ok result
    /\ In r result
    /\ (forall x, In x result -> same_key r x = true -> x = r)
    /\ timestamp r = Timestamp_strftime ts
    /\ kept_reading temp (temperature_2m r)
    /\ kept_reading hum (relative_humidity_2m r)
    /\ kept lat (latitude r)
    /\ kept lon (longitude r).
Proof.
  intros Hts Hnow Hwin.
  set (w := row_of ts temp hum lat lon).
  exists (replace_into rows w), (select_since (cutoff_48h now) (replace_into rows w)), w.
  split; [apply upsert_one|]. split; [reflexivity|].
  split; [|split].
  - apply select_since_In. split.
    + unfold replace_into. apply in_or_app. right. now left.
    + unfold cutoff_48h, datetime_strftime. fold (window_start now).
      cbn [w row_of timestamp]. unfold Timestamp_strftime.
      rewrite text_leb_format_utc by assumption. now apply Z.leb_le.
  - intros x Hx Hk. apply select_since_In in Hx as [Hx _].
    assert (Hf : In x (filter (same_key w) (replace_into rows w)))
      by (apply filter_In; now split).
    rewrite (replace_into_key rows w w (same_key_refl w)) in Hf.
    destruct Hf as [<- | []]. reflexivity.
  - cbn [w row_of timestamp temperature_2m relative_humidity_2m
           latitude longitude].
    split; [reflexivity|].
    split; [apply bind_float_kept|]. split; [apply bind_float_kept|].
    split; apply real_column_kept.
Qed.

Lemma stored_rows_strftime (df : DataFrame) :
  Forall (fun r => exists row,
            In row df /\ timestamp r = Timestamp_strftime (df_timestamp row))
         (stored_rows df).
Proof.
  induction df as [| row df IH]; cbn [stored_rows]; [constructor|].
  assert (IH' : Forall (fun r => exists row',
                          In row' (row :: df)
                          /\ timestamp r
                             = Timestamp_strftime (df_timestamp row'))
                       (stored_rows df)).
  { eapply Forall_impl; [|exact IH].
    intros r (row' & Hin & E). exists row'. split; [now right | exact E]. }
  destruct (stored_row row) as [w|] eqn:Hw; [|exact IH'].
  constructor; [|exact IH'].
  exists row. split; [now left|].
  unfold stored_row in Hw.
  destruct (df_temperature_2m row), (df_relative_humidity_2m row),
    (df_latitude row) as [[|?]|], (df_longitude row) as [[|?]|];
    try discriminate.
  now injection Hw as <-.
Qed.

(** Every timestamp of a table the program has written is the text
    [strftime] gives for some instant, a whole number of seconds. *)
Lemma written_by_upserts_strftime (rows : list weather_row) :
  written_by_upserts rows ->
  Forall (fun r => exists t, timestamp r = format_utc t) rows.
Proof.
  induction 1 as [| rows rows' df n _ IH Hup]; [constructor|].
  apply upsert_records_returns in Hup as (_ & _ & Hdb).
  injection Hdb as ->.
  apply fold_replace_Forall; [|exact IH].
  eapply Forall_impl; [|apply stored_rows_strftime].
  intros r (row & _ & E). now exists (Timestamp_second (df_timestamp row)).
Qed.

(** A batch of four-digit years stores canonical timestamps only. *)
Lemma stored_rows_canonical (df : DataFrame) :
  Forall (fun row =>
            four_digit_year (Timestamp_second (df_timestamp row)) = true) df ->
  Forall (fun r => exists t, canonical r t) (stored_rows df).
Proof.
  intros Hdf. rewrite Forall_forall in Hdf.
  eapply Forall_impl; [|apply stored_rows_strftime].
  intros r (row & Hin & E).
  exists (Timestamp_second (df_timestamp row)).
  split; [now apply Hdf | exact E].
Qed.

(** C10, as amended.  Every timestamp the program has stored is the text
    [strftime] gives for an instant, at most twenty bytes long.  When the
    instants of two stored rows have four-digit years, the texts are the
    twenty-byte form [YYYY-MM-DDTHH:MM:SSZ], their order (ORDER BY timestamp)
    is the order of the instants, and so is the comparison of the cutoff text
    with a stored timestamp (WHERE timestamp >= cutoff). *)
Theorem stored_timestamps_order_chronologically
  (rows : list weather_row) (r1 r2 : weather_row) :
  written_by_upserts rows -> In r1 rows -> In r2 rows ->
  (exists t, timestamp r1 = format_utc t)
  /\ (17 <= String.length (timestamp r1) <= 20)%nat
  /\ (forall t1 t2, canonical r1 t1 -> canonical r2 t2 ->
        String.length (timestamp r1) = 20%nat
        /\ text_compare (timestamp r1) (timestamp r2) = (t1 ?= t2)
        /\ text_leb (timestamp r1) (timestamp r2) = (t1 <=? t2)
        /\ (forall now, four_digit_year (window_start now) = true ->
              text_leb (cutoff_48h now) (timestamp r1)
              = (window_start now <=? t1))).
Proof.
  intros Hrows H1 H2.
  pose proof (written_by_upserts_strftime rows Hrows) as Hc.
  rewrite Forall_forall in Hc.
  destruct (Hc r1 H1) as (t & E).
  split; [now exists t|].
  split; [rewrite E; apply format_utc_length_le|].
  intros t1 t2 [Ht1 E1] [Ht2 E2].
  rewrite E1, E2. split; [now apply format_utc_length|].
  split; [now apply format_utc_compare|].
  split; [now apply text_leb_format_utc|].
  intros now Hnow. unfold cutoff_48h, datetime_strftime.
  fold (window_start now). now apply text_leb_format_utc.
Qed.

(** *** The fetcher and the routes *)

Lemma StronglySorted_map {A B : Type} (f : A -> B)
  (R : A -> A -> Prop) (S : B -> B -> Prop) (l : list A) :
  (forall a b, R a b -> S (f a) (f b)) ->
  StronglySorted R l -> StronglySorted S (map f l).
Proof.
  intros HRS. induction 1 as [| a l Hl IH Ha]; cbn [map]; constructor.
  - exact IH.
  - apply Forall_map. eapply Forall_impl; [|exact Ha]. intros b. apply HRS.
Qed.

Lemma sort_values_sorted (frame : list (Timestamp * pyobj * pyobj)) :
  StronglySorted (fun a b => fst (fst a) <= fst (fst b)) (sort_values frame).
Proof.
  rewrite <- (map_id (sort_values frame)).
  apply (StronglySorted_map (fun x => x) (fun a b => triple_leb a b = true)).
  - intros a b H. now apply Z.leb_le.
  - apply sort_by_sorted; unfold triple_leb.
    + intros a b H. apply Z.leb_le. apply Z.leb_gt in H. lia.
    + intros a b c H1 H2. apply Z.leb_le. apply Z.leb_le in H1, H2. lia.
Qed.

Lemma column_length (vals : list json_value) :
  List.length (column vals) = List.length vals.
Proof. unfold column. destruct (forallb is_null vals); apply length_map. Qed.

Section AppFacts.

Variable to_datetime : string -> option Timestamp.
Variable float_of_str : string -> option float.
Variable to_excel :
  list (string * option real * option real) -> result (list Byte.byte).
Variable write_pdf : datetime -> list weather_row -> option (list Byte.byte).
Variable PdfPages : list weather_row -> list Byte.byte.

Lemma to_datetime_all_length (times : list string) (ts : list Timestamp) :
  to_datetime_all to_datetime times = Ok ts ->
  List.length ts = List.length times.
Proof.
  revert ts. induction times as [| s times IH]; cbn [to_datetime_all].
  - now intros ts [= <-].
  - destruct (to_datetime s); [|discriminate].
    destruct (to_datetime_all to_datetime times) as [ts'|]; [|discriminate].
    cbn [and_then]. intros ts [= <-]. cbn [List.length]. now rewrite (IH ts').
Qed.

Lemma to_datetime_all_raises (times : list string) (e : exn) :
  to_datetime_all to_datetime times = Raise e -> e = ValueError.
Proof.
  induction times as [| s times IH]; cbn [to_datetime_all]; [discriminate|].
  destruct (to_datetime s); [|now intros [= <-]].
  destruct (to_datetime_all to_datetime times); [discriminate|].
  cbn [and_then]. intros [= <-]. now apply IH.
Qed.

(** What a successful fetch went through. *)
Lemma fetch_open_meteo_ok (reply : http_reply) (lat lon : float)
  (df : DataFrame) :
  fetch_open_meteo to_datetime reply lat lon = Ok df ->
  exists status h ts frame,
    reply = Reply status (Json h)
    /\ raise_for_status status = Ok tt
    /\ to_datetime_all to_datetime (time h) = Ok ts
    /\ frame3 ts (column (hourly_temperature_2m h))
         (column (hourly_relative_humidity_2m h)) = Ok frame
    /\ df = map (fun row =>
                   mkDf (fst (fst row)) (snd (fst row)) (snd row)
                        (PyFloat lat) (PyFloat lon))
                (sort_values frame).
Proof.
  unfold fetch_open_meteo.
  destruct reply as [| | status body]; cbn [requests_get and_then];
    try discriminate.
  cbn [fst snd].
  destruct (raise_for_status status) as [[]|] eqn:Hs; cbn [and_then];
    [|discriminate].
  destruct body as [|h]; cbn [response_json and_then]; [discriminate|].
  destruct (empty (time h) || empty (hourly_temperature_2m h)
            || empty (hourly_relative_humidity_2m h)); [discriminate|].
  destruct (to_datetime_all to_datetime (time h)) as [ts|] eqn:Hts;
    cbn [and_then]; [|discriminate].
  destruct (frame3 ts _ _) as [frame|] eqn:Hf; cbn [and_then]; [|discriminate].
  intros [= <-]. now exists status, h, ts, frame.
Qed.

(** C8.  The rows of a successful fetch are in ascending order of timestamp
    and each carries the latitude and longitude of the request. *)
Theorem fetch_open_meteo_normalized
  (reply : http_reply) (lat lon : float) (df : DataFrame) :
  fetch_open_meteo to_datetime reply lat lon = Ok df ->
  StronglySorted (fun a b => df_timestamp a <= df_timestamp b) df
  /\ Forall (fun row => df_latitude row = PyFloat lat
                        /\ df_longitude row = PyFloat lon) df.
Proof.
  intros H. apply fetch_open_meteo_ok in H
    as (status & h & ts & frame & _ & _ & _ & _ & ->).
  split.
  - eapply StronglySorted_map; [|apply sort_values_sorted].
    intros a b Hab. exact Hab.
  - apply Forall_map. apply Forall_forall. intros row _. now split.
Qed.

(** C3.  A reply whose temperature array is shorter than its time array
    makes the fetch raise ValueError, the exception of a malformed payload;
    the route answers 500 and the database is the one it was given. *)
Theorem misaligned_arrays_rejected
  (status : Z) (h : hourly) (lat lon : float)
  (lat_arg lon_arg : string) (db : database) :
  raise_for_status status = Ok tt ->
  (List.length (hourly_temperature_2m h) < List.length (time h))%nat ->
  float_of_str lat_arg = Some lat ->
  float_of_str lon_arg = Some lon ->
  fetch_open_meteo to_datetime (Reply status (Json h)) lat lon
  = Raise ValueError
  /\ weather_report to_datetime float_of_str (Some lat_arg) (Some lon_arg)
       (Reply status (Json h)) db
     = (Jsonify (ErrorBody (StrOf ValueError)) 500, db).
Proof.
  intros Hs Hlen Hlat Hlon.
  assert (Hf : fetch_open_meteo to_datetime (Reply status (Json h)) lat lon
               = Raise ValueError).
  { unfold fetch_open_meteo. cbn [requests_get and_then fst snd].
    rewrite Hs. cbn [and_then response_json].
    destruct (empty (time h) || empty (hourly_temperature_2m h)
              || empty (hourly_relative_humidity_2m h)); [reflexivity|].
    destruct (to_datetime_all to_datetime (time h)) as [ts|e] eqn:Hts;
      cbn [and_then].
    - apply to_datetime_all_length in Hts.
      unfold frame3. rewrite column_length.
      replace (List.length ts =? List.length (hourly_temperature_2m h))%nat
        with false by (symmetry; apply Nat.eqb_neq; lia).
      reflexivity.
    - now rewrite (to_datetime_all_raises _ _ Hts). }
  split; [exact Hf|].
  unfold weather_report, arg_float. rewrite Hlat, Hlon. cbn [and_then].
  now rewrite Hf.
Qed.

(** C4, as amended.  A reply with a client or server error status makes the
    fetch raise HTTPError, which the route answers with 502; a timeout raises
    Timeout and a malformed payload ValueError, neither an HTTPError, and the
    route answers both with 500.  502 is the answer to HTTPError and to
    nothing else. *)
Theorem upstream_errors_and_status_codes
  (lat lon : float) (lat_arg lon_arg : string) (db : database) :
  float_of_str lat_arg = Some lat ->
  float_of_str lon_arg = Some lon ->
  let report := weather_report to_datetime float_of_str
                  (Some lat_arg) (Some lon_arg) in
  (forall status body, 400 <= status < 600 ->
     fetch_open_meteo to_datetime (Reply status body) lat lon
     = Raise (HTTPError status)
     /\ report (Reply status body) db
        = (Jsonify (ErrorBody (HttpErrorText (HTTPError status))) 502, db))
  /\ (fetch_open_meteo to_datetime TimedOut lat lon = Raise Timeout
      /\ report TimedOut db = (Jsonify (ErrorBody (StrOf Timeout)) 500, db))
  /\ (forall reply,
        fetch_open_meteo to_datetime reply lat lon = Raise ValueError ->
        report reply db = (Jsonify (ErrorBody (StrOf ValueError)) 500, db))
  /\ (forall reply e,
        fetch_open_meteo to_datetime reply lat lon = Raise e ->
        report reply db = (report_handler e, db)
        /\ (status_code (report_handler e) = 502
            <-> exists status, e = HTTPError status)).
Proof.
  intros Hlat Hlon report.
  assert (Hrep : forall reply e,
             fetch_open_meteo to_datetime reply lat lon = Raise e ->
             report reply db = (report_handler e, db)).
  { intros reply e He. unfold report, weather_report, arg_float.
    rewrite Hlat, Hlon. cbn [and_then]. now rewrite He. }
  assert (Hhttp : forall status body, 400 <= status < 600 ->
             fetch_open_meteo to_datetime (Reply status body) lat lon
             = Raise (HTTPError status)).
  { intros status body Hs. unfold fetch_open_meteo, raise_for_status.
    cbn [requests_get and_then fst].
    replace ((400 <=? status) && (status <? 600)) with true; [reflexivity|].
    symmetry. apply andb_true_iff. split; [apply Z.leb_le | apply Z.ltb_lt]; lia. }
  split; [|split; [|split]].
  - intros status body Hs. split; [now apply Hhttp|].
    now rewrite (Hrep _ _ (Hhttp status body Hs)).
  - split; [reflexivity|]. now rewrite (Hrep TimedOut Timeout eq_refl).
  - intros reply He. now rewrite (Hrep _ _ He).
  - intros reply e He. split; [now apply Hrep|]. split.
    + destruct e; cbn [report_handler status_code]; intros Hc;
        try discriminate. now exists status.
    + intros [status ->]. reflexivity.
Qed.

(** C5.  On a table without rows the query returns the empty list, it
    does not raise; whenever the window is empty both export routes answer
    400 with a message and send no file. *)
Theorem empty_window_exports (now : datetime) (db : database) :
  query_last_48h now db = Ok [] ->
  init_db None = Some []
  /\ query_last_48h now (Some []) = Ok []
  /\ export_excel to_excel now db = Jsonify (ErrorBody NoData) 400
  /\ export_pdf write_pdf PdfPages now db = Jsonify (ErrorBody NoData) 400
  /\ is_file (export_excel to_excel now db) = false
  /\ is_file (export_pdf write_pdf PdfPages now db) = false.
Proof.
  intros H. unfold export_excel, export_pdf. rewrite H. cbn [empty is_file].
  split; [reflexivity|]. split; [reflexivity|]. now repeat split.
Qed.

End AppFacts.

(* ================================================================== *)
(** ** Worked examples *)

Example strftime_epoch : format_utc 0 = "1970-01-01T00:00:00Z".
Proof. reflexivity. Qed.

Example strftime_cuts_to_seconds :
  datetime_strftime sample_now = "2023-11-14T22:13:20Z"
  /\ cutoff_48h sample_now = "2023-11-12T22:13:20Z".
Proof. split; reflexivity. Qed.

Example first_ingest :
  weather_report iso_minute_to_datetime sample_float_of_str
    (Some "52.5") (Some "13.4") (Reply 200 (Json sample_hourly)) (init_db None)
  = (Jsonify (Summary "Data fetched and stored" 3 "2023-11-14T20:00:00Z"
                      "2023-11-14T22:00:00Z" 3) 200,
     Some sample_table).
Proof. vm_compute. reflexivity. Qed.

(** Ingesting three hours and then one of them again with two new ones
    leaves five rows, the repeated hour with its newest reading. *)
Example second_ingest :
  exists rows,
    snd (weather_report iso_minute_to_datetime sample_float_of_str
           (Some "52.5") (Some "13.4") (Reply 200 (Json later_hourly))
           (Some sample_table))
    = Some rows
    /\ List.length rows = 5%nat
    /\ unique_keys rows = true
    /\ filter (fun r => text_eqb (timestamp r) "2023-11-14T22:00:00Z") rows
       = [mkRow "2023-11-14T22:00:00Z" (Some f21_5) (Some f60_0) f52_5 f13_4].
Proof.
  eexists. split; [vm_compute; reflexivity|].
  split; [reflexivity|]. split; vm_compute; reflexivity.
Qed.

(** Before the exception the connection had written the first row; only
    the rollback of [with_conn] undoes it. *)
Example broken_batch_partial_write :
  exists c,
    upsert_loop broken_frame 0 (get_conn (Some [old_row]))
    = (Raise TypeError, c)
    /\ committed c = Some [old_row]
    /\ option_map (@List.length weather_row) (current c) = Some 2%nat.
Proof.
  eexists. split; [vm_compute; reflexivity|]. split; reflexivity.
Qed.

(** The two zeros are one key: a measurement at latitude -0.0 replaces the
    row at latitude 0.0 of the same hour and longitude, and is itself kept
    at latitude 0.0. *)
Example zero_latitudes_share_a_key :
  upsert_records
    [measurement (at_hour 0) (num f20_0) nan negative_zero f13_4]
    (Some [mkRow "2023-11-14T20:00:00Z" (Some f19_5) None
                 (mkReal false 0) f13_4])
  = (Ok 1,
     Some [mkRow "2023-11-14T20:00:00Z" (Some f20_0) None
                 (mkReal false 0) f13_4]).
Proof. vm_compute. reflexivity. Qed.

(** The year 999 is written with three digits. *)
Example strftime_year_999 :
  Timestamp_strftime year_999 = "999-12-31T23:59:59Z"
  /\ Timestamp_strftime (year_999 + 1000000000) = "1000-01-01T00:00:00Z".
Proof. split; vm_compute; reflexivity. Qed.

(** A NaN coordinate is bound as NULL and refused by NOT NULL. *)
Example nan_latitude_refused :
  weather_report iso_minute_to_datetime sample_float_of_str
    (Some "nan") (Some "13.4") (Reply 200 (Json sample_hourly)) (init_db None)
  = (Jsonify (ErrorBody (StrOf IntegrityError)) 500, Some []).
Proof. vm_compute. reflexivity. Qed.

(** ** The claims at concrete inputs *)



Lemma upsert_records_counts_rows_witness :
  forallb storable sample_frame = true
  /\ (exists db',
        upsert_records sample_frame (Some sample_table)
        = (Ok (Z.of_nat (List.length sample_frame)), db'))
  /\ (forall db n db',
        upsert_records sample_frame db = (Ok n, db') ->
        n = Z.of_nat (List.length sample_frame)).
Proof.
  split; [reflexivity|].
  apply (upsert_records_counts_rows sample_frame sample_table).
  reflexivity.
Defined.

Lemma upsert_records_all_or_nothing_witness :
  upsert_records broken_frame (Some [old_row])
  = (Raise TypeError, Some [old_row])
  /\ Some [old_row] = Some [old_row].
Proof.
  assert (H : upsert_records broken_frame (Some [old_row])
              = (Raise TypeError, Some [old_row]))
    by (vm_compute; reflexivity).
  split; [exact H|].
  exact (upsert_records_all_or_nothing broken_frame (Some [old_row])
           (Some [old_row]) TypeError H).
Defined.

(** C6: the negative zero does not come back.  A measurement inside the
    window, upserted at latitude -0.0 with temperature -0.0, is returned at
    latitude 0.0 with temperature 0.0. *)
Lemma negative_zero_read_back_positive :
  window_start sample_now <= Timestamp_second (at_hour 0)
  /\ upsert_records
       [measurement (at_hour 0) (num negative_zero) (num f65_0)
                    negative_zero f13_4]
       (Some [])
     = (Ok 1, Some [zero_row])
  /\ query_last_48h sample_now (Some [zero_row]) = Ok [zero_row]
  /\ latitude zero_row <> negative_zero
  /\ temperature_2m zero_row <> Some negative_zero
  /\ ~ (forall rows now ts temp hum lat lon rows' result,
          window_start now <= Timestamp_second ts ->
          upsert_records [measurement ts (num temp) (num hum) lat lon]
            (Some rows)
          = (Ok 1, Some rows') ->
          query_last_48h now (Some rows') = Ok result ->
          exists r,
            In r result
            /\ temperature_2m r = Some temp
            /\ relative_humidity_2m r = Some hum
            /\ latitude r = lat
            /\ longitude r = lon).
Proof.
  assert (Hw : window_start sample_now <= Timestamp_second (at_hour 0))
    by (vm_compute; discriminate).
  assert (Hu : upsert_records
                 [measurement (at_hour 0) (num negative_zero) (num f65_0)
                              negative_zero f13_4]
                 (Some [])
               = (Ok 1, Some [zero_row])) by (vm_compute; reflexivity).
  assert (Hq : query_last_48h sample_now (Some [zero_row]) = Ok [zero_row])
    by (vm_compute; reflexivity).
  split; [exact Hw|]. split; [exact Hu|]. split; [exact Hq|].
  split; [discriminate|]. split; [discriminate|].
  intros H.
  destruct (H [] sample_now (at_hour 0) negative_zero f65_0 negative_zero
              f13_4 [zero_row] [zero_row] Hw Hu Hq)
    as (r & [<- | []] & _ & _ & Hlat & _).
  discriminate Hlat.
Qed.

Lemma upsert_then_query_round_trip_witness :
  window_start sample_now <= Timestamp_second (at_hour 2)
  /\ exists rows' result r,
       upsert_records [measurement (at_hour 2) nan (num f60_0) f52_5 f13_4]
         (Some sample_table)
       = (Ok 1, Some rows')
       /\ query_last_48h sample_now (Some rows') = Ok result
       /\ In r result
       /\ (forall x, In x result -> same_key r x = true -> x = r)
       /\ timestamp r = Timestamp_strftime (at_hour 2)
       /\ kept_reading nan (temperature_2m r)
       /\ kept_reading (num f60_0) (relative_humidity_2m r)
       /\ kept f52_5 (latitude r)
       /\ kept f13_4 (longitude r).
Proof.
  assert (Hw : window_start sample_now <= Timestamp_second (at_hour 2))
    by (vm_compute; discriminate).
  split; [exact Hw|].
  apply (upsert_then_query_round_trip sample_table sample_now (at_hour 2)
           nan (num f60_0) f52_5 f13_4);
    [reflexivity | reflexivity | exact Hw].
Defined.

Lemma sample_table_written : written_by_upserts sample_table.
Proof.
  apply (written_upsert [] sample_table sample_frame 3).
  - exact written_init.
  - vm_compute. reflexivity.
Qed.

Lemma early_table_written : written_by_upserts early_table.
Proof.
  apply (written_upsert [] early_table early_frame 2).
  - exact written_init.
  - vm_compute. reflexivity.
Qed.

(** C10: a Timestamp in the year 999 is stored as a text of 19 bytes that
    sorts after the texts of the year 2023 and passes the cutoff of a window
    a thousand years later. *)
Lemma year_999_stored_out_of_order :
  upsert_records early_frame (Some []) = (Ok 2, Some early_table)
  /\ timestamp (nth 0 early_table old_row) = "999-12-31T23:59:59Z"
  /\ timestamp (nth 0 early_table old_row)
     = format_utc (Timestamp_second year_999)
  /\ timestamp (nth 1 early_table old_row)
     = format_utc (Timestamp_second (at_hour 0))
  /\ String.length (timestamp (nth 0 early_table old_row)) = 19%nat
  /\ Timestamp_second year_999 < Timestamp_second (at_hour 0)
  /\ text_compare (timestamp (nth 0 early_table old_row))
       (timestamp (nth 1 early_table old_row)) = Gt
  /\ Timestamp_second year_999 < window_start sample_now
  /\ query_last_48h sample_now (Some early_table)
     = Ok [nth 1 early_table old_row; nth 0 early_table old_row]
  /\ ~ (forall rows r1 r2 t1 t2,
          written_by_upserts rows -> In r1 rows -> In r2 rows ->
          timestamp r1 = format_utc t1 -> timestamp r2 = format_utc t2 ->
          String.length (timestamp r1) = 20%nat
          /\ text_compare (timestamp r1) (timestamp r2) = (t1 ?= t2)).
Proof.
  do 5 (split; [vm_compute; reflexivity|]).
  split; [vm_compute; reflexivity|].
  split; [vm_compute; reflexivity|].
  split; [vm_compute; reflexivity|].
  split; [vm_compute; reflexivity|].
  intros H.
  destruct (H early_table (nth 0 early_table old_row)
              (nth 1 early_table old_row)
              (Timestamp_second year_999) (Timestamp_second (at_hour 0))
              early_table_written
              (or_introl eq_refl) (or_intror (or_introl eq_refl))
              ltac:(vm_compute; reflexivity) ltac:(vm_compute; reflexivity))
    as [Hlen _].
  vm_compute in Hlen. discriminate Hlen.
Qed.

Lemma stored_timestamps_order_chronologically_witness :
  written_by_upserts sample_table
  /\ (exists t, timestamp (nth 0 sample_table old_row) = format_utc t)
  /\ (17 <= String.length (timestamp (nth 0 sample_table old_row)) <= 20)%nat
  /\ (forall t1 t2,
        canonical (nth 0 sample_table old_row) t1 ->
        canonical (nth 2 sample_table old_row) t2 ->
        String.length (timestamp (nth 0 sample_table old_row)) = 20%nat
        /\ text_compare (timestamp (nth 0 sample_table old_row))
             (timestamp (nth 2 sample_table old_row))
           = (t1 ?= t2)
        /\ text_leb (timestamp (nth 0 sample_table old_row))
             (timestamp (nth 2 sample_table old_row))
           = (t1 <=? t2)
        /\ (forall now, four_digit_year (window_start now) = true ->
              text_leb (cutoff_48h now)
                (timestamp (nth 0 sample_table old_row))
              = (window_start now <=? t1))).
Proof.
  split; [exact sample_table_written|].
  apply (stored_timestamps_order_chronologically sample_table
           (nth 0 sample_table old_row) (nth 2 sample_table old_row)
           sample_table_written).
  - left. reflexivity.
  - right. right. left. reflexivity.
Defined.

Lemma fetch_open_meteo_normalized_witness :
  fetch_open_meteo iso_minute_to_datetime (Reply 200 (Json sample_hourly))
    (num f52_5) (num f13_4) = Ok sample_frame
  /\ StronglySorted (fun a b => df_timestamp a <= df_timestamp b) sample_frame
  /\ Forall (fun row => df_latitude row = PyFloat (num f52_5)
                        /\ df_longitude row = PyFloat (num f13_4))
            sample_frame.
Proof.
  assert (H : fetch_open_meteo iso_minute_to_datetime
                (Reply 200 (Json sample_hourly)) (num f52_5) (num f13_4)
              = Ok sample_frame) by (vm_compute; reflexivity).
  split; [exact H|].
  exact (fetch_open_meteo_normalized iso_minute_to_datetime
           (Reply 200 (Json sample_hourly)) (num f52_5) (num f13_4)
           sample_frame H).
Defined.

Lemma misaligned_arrays_rejected_witness :
  (List.length (hourly_temperature_2m short_hourly)
   < List.length (time short_hourly))%nat
  /\ fetch_open_meteo iso_minute_to_datetime (Reply 200 (Json short_hourly))
       (num f52_5) (num f13_4)
     = Raise ValueError
  /\ weather_report iso_minute_to_datetime sample_float_of_str
       (Some "52.5") (Some "13.4") (Reply 200 (Json short_hourly))
       (Some sample_table)
     = (Jsonify (ErrorBody (StrOf ValueError)) 500, Some sample_table).
Proof.
  assert (Hlen : (List.length (hourly_temperature_2m short_hourly)
                  < List.length (time short_hourly))%nat)
    by (vm_compute; lia).
  split; [exact Hlen|].
  apply (misaligned_arrays_rejected iso_minute_to_datetime sample_float_of_str
           200 short_hourly (num f52_5) (num f13_4) "52.5" "13.4"
           (Some sample_table));
    [reflexivity | exact Hlen | reflexivity | reflexivity].
Defined.

(** C4: a timeout is a network failure and is answered with 500; a
    redirect status with a well-formed body is ingested. *)
Lemma timeout_answered_with_500 :
  network_failure TimedOut = true
  /\ weather_report iso_minute_to_datetime sample_float_of_str
       (Some "52.5") (Some "13.4") TimedOut (Some sample_table)
     = (Jsonify (ErrorBody (StrOf Timeout)) 500, Some sample_table)
  /\ network_failure (Reply 302 (Json sample_hourly)) = true
  /\ status_code
       (fst (weather_report iso_minute_to_datetime sample_float_of_str
               (Some "52.5") (Some "13.4") (Reply 302 (Json sample_hourly))
               (Some sample_table)))
     = 200
  /\ ~ (forall reply db,
          network_failure reply = true ->
          status_code
            (fst (weather_report iso_minute_to_datetime sample_float_of_str
                    (Some "52.5") (Some "13.4") reply db))
          = 502).
Proof.
  do 4 (split; [vm_compute; reflexivity|]).
  intros H. specialize (H TimedOut (Some sample_table) eq_refl).
  vm_compute in H. discriminate.
Qed.

Lemma upstream_errors_and_status_codes_witness :
  fetch_open_meteo iso_minute_to_datetime (Reply 503 NotJson)
    (num f52_5) (num f13_4)
  = Raise (HTTPError 503)
  /\ weather_report iso_minute_to_datetime sample_float_of_str
       (Some "52.5") (Some "13.4") (Reply 503 NotJson) (Some sample_table)
     = (Jsonify (ErrorBody (HttpErrorText (HTTPError 503))) 502,
        Some sample_table).
Proof.
  apply (proj1 (upstream_errors_and_status_codes iso_minute_to_datetime
                  sample_float_of_str (num f52_5) (num f13_4) "52.5" "13.4"
                  (Some sample_table) eq_refl eq_refl) 503 NotJson).
  lia.
Defined.

Lemma empty_window_exports_witness :
  query_last_48h sample_now (Some [old_row]) = Ok []
  /\ init_db None = Some []
  /\ query_last_48h sample_now (Some []) = Ok []
  /\ export_excel no_sheet sample_now (Some [old_row])
     = Jsonify (ErrorBody NoData) 400
  /\ export_pdf no_engine no_bytes sample_now (Some [old_row])
     = Jsonify (ErrorBody NoData) 400
  /\ is_file (export_excel no_sheet sample_now (Some [old_row])) = false
  /\ is_file (export_pdf no_engine no_bytes sample_now (Some [old_row]))
     = false.
Proof.
  assert (H : query_last_48h sample_now (Some [old_row]) = Ok [])
    by (vm_compute; reflexivity).
  split; [exact H|].
  exact (empty_window_exports no_sheet no_engine no_bytes sample_now
           (Some [old_row]) H).
Defined.

(* ================================================================== *)
(** * Further properties *)

(** ** Further properties of the store *)

Lemma filter_twice {A : Type} (p q : A -> bool) (l : list A) :
  filter p (filter q l) = filter (fun x => q x && p x) l.
Proof.
  induction l as [| a l IH]; cbn [filter]; [reflexivity|].
  destruct (q a); cbn [filter andb]; [|exact IH].
  destruct (p a); now rewrite IH.
Qed.

Lemma filter_implied {A : Type} (p q : A -> bool) (l : list A) :
  (forall x, p x = true -> q x = true) ->
  filter p (filter q l) = filter p l.
Proof.
  intros Hpq. rewrite filter_twice. apply filter_ext.
  intros x. destruct (p x) eqn:Hp; [now rewrite (Hpq x Hp) | apply andb_false_r].
Qed.

Lemma upsert_records_raise_keeps (df : DataFrame) (db db' : database)
  (e : exn) :
  upsert_records df db = (Raise e, db') -> db' = db.
Proof.
  unfold upsert_records, with_conn, bind.
  destruct (upsert_loop df 0 (get_conn db)) as [[n|e'] c] eqn:Hloop.
  - cbn. discriminate.
  - intros [= _ <-]. cbn [conn_rollback snd committed].
    exact (upsert_loop_committed _ _ _ _ _ Hloop).
Qed.

(** The table after a batch: the rows no row of the batch is in conflict
    with, as they were, then the last writes of the batch. *)
Lemma fold_replace_shape (ws : list weather_row) :
  forall rows,
  fold_left replace_into ws rows
  = filter (fun x => negb (in_batch ws x)) rows ++ last_writes ws.
Proof.
  induction ws as [| w ws IH]; intros rows; cbn [fold_left last_writes].
  - cbn [in_batch existsb negb]. rewrite app_nil_r.
    symmetry. apply forallb_filter_id. now apply forallb_forall.
  - rewrite IH. unfold replace_into at 1. rewrite filter_app, filter_twice.
    cbn [filter]. rewrite <- app_assoc. f_equal.
    + apply filter_ext. intros x. cbn [in_batch existsb].
      now rewrite negb_orb.
    + fold (in_batch ws w). now destruct (in_batch ws w).
Qed.

Lemma last_writes_in_batch (ws : list weather_row) (x : weather_row) :
  In x (last_writes ws) -> In x ws.
Proof.
  induction ws as [| w ws IH]; cbn [last_writes]; [easy|].
  destruct (in_batch ws w); cbn [In]; intuition.
Qed.

Lemma in_batch_self (ws : list weather_row) (x : weather_row) :
  In x ws -> in_batch ws x = true.
Proof.
  intros H. apply existsb_exists. exists x. split; [exact H|].
  apply same_key_refl.
Qed.

(** Every key of the batch has a row among the last writes. *)
Lemma last_writes_cover (ws : list weather_row) (w : weather_row) :
  in_batch ws w = true ->
  exists y, In y (last_writes ws) /\ same_key y w = true.
Proof.
  induction ws as [| v ws IH]; cbn [in_batch existsb last_writes];
    [discriminate|].
  fold (in_batch ws w). fold (in_batch ws v). intros H.
  destruct (in_batch ws v) eqn:Hv.
  - apply IH. destruct (same_key v w) eqn:Hvw; [|exact H].
    apply existsb_exists in Hv as (u & Hu & Huv).
    apply existsb_exists. exists u. split; [exact Hu|].
    exact (same_key_trans _ _ _ Huv Hvw).
  - destruct (same_key v w) eqn:Hvw.
    + exists v. split; [now left | exact Hvw].
    + destruct (IH H) as (y & Hy & Hyw). exists y. split; [now right|exact Hyw].
Qed.

(** No key is lost: every row of the table, and every row of the batch, has
    a row of the same key in the table after the batch. *)
Lemma fold_replace_covers (ws rows : list weather_row) (x : weather_row) :
  In x rows \/ In x ws ->
  exists y, In y (fold_left replace_into ws rows) /\ same_key y x = true.
Proof.
  rewrite fold_replace_shape. intros H.
  destruct (in_batch ws x) eqn:Hx.
  - destruct (last_writes_cover ws x Hx) as (y & Hy & Hyx).
    exists y. split; [apply in_or_app; now right | exact Hyx].
  - destruct H as [H | H].
    + exists x. split; [|apply same_key_refl].
      apply in_or_app. left. apply filter_In. now rewrite Hx.
    + now rewrite (in_batch_self ws x H) in Hx.
Qed.

(** Rows whose key no row of the batch has stay as they are. *)
Lemma fold_replace_keeps_others (ws rows : list weather_row) :
  filter (fun x => negb (in_batch ws x)) (fold_left replace_into ws rows)
  = filter (fun x => negb (in_batch ws x)) rows.
Proof.
  rewrite fold_replace_shape, filter_app, filter_twice.
  rewrite (filter_none _ (last_writes ws)).
  - rewrite app_nil_r. apply filter_ext.
    intros x. now destruct (in_batch ws x).
  - intros x Hx. apply last_writes_in_batch in Hx.
    now rewrite (in_batch_self _ x Hx).
Qed.

(** A batch written a second time changes nothing. *)
Lemma fold_replace_twice (ws rows : list weather_row) :
  fold_left replace_into ws (fold_left replace_into ws rows)
  = fold_left replace_into ws rows.
Proof.
  rewrite (fold_replace_shape ws (fold_left replace_into ws rows)).
  rewrite (fold_replace_shape ws rows).
  rewrite filter_app, filter_twice.
  rewrite (filter_none (fun x => negb (in_batch ws x)) (last_writes ws)).
  - rewrite app_nil_r. f_equal. apply filter_ext.
    intros x. now destruct (in_batch ws x).
  - intros x Hx. apply last_writes_in_batch in Hx.
    now rewrite (in_batch_self ws x Hx).
Qed.

Lemma unique_keys_perm (l l' : list weather_row) :
  Permutation l l' -> unique_keys l = true -> unique_keys l' = true.
Proof.
  induction 1 as [| x l l' Hp IH | x y l | l l' l'' _ IH1 _ IH2];
    cbn [unique_keys]; intros H.
  - reflexivity.
  - apply andb_true_iff in H as [Hx Hl]. rewrite (IH Hl), andb_true_r.
    apply forallb_forall. intros z Hz.
    apply (proj1 (forallb_forall _ _) Hx). apply (Permutation_in z (Permutation_sym Hp) Hz).
  - cbn [forallb] in *.
    apply andb_true_iff in H as [Hy Hr]. apply andb_true_iff in Hy as [Hyx Hy].
    apply andb_true_iff in Hr as [Hx Hl].
    rewrite Hx, Hy, Hl, (same_key_sym x y), Hyx. reflexivity.
  - auto.
Qed.

Lemma written_by_upserts_unique (rows : list weather_row) :
  written_by_upserts rows -> unique_keys rows = true.
Proof.
  induction 1 as [| rows rows' df n _ IH Hup]; [reflexivity|].
  destruct (upsert_records_unique df rows (Ok n) (Some rows') IH Hup)
    as (r & [= <-] & Hr). exact Hr.
Qed.

Lemma format_utc_inj (a b : Z) :
  four_digit_year a = true -> four_digit_year b = true ->
  format_utc a = format_utc b -> a = b.
Proof.
  intros Ha Hb E. apply Z.compare_eq.
  rewrite <- (format_utc_compare a b Ha Hb), E. apply text_compare_refl.
Qed.

(** X2.  The table a batch leaves: the rows of the old table that no row of the
    batch is in conflict with, unchanged and in their order, then for each
    key of the batch the last row the batch has for it. *)
Theorem upsert_records_table (df : DataFrame) (rows : list weather_row) :
  forallb storable df = true ->
  upsert_records df (Some rows)
  = (Ok (Z.of_nat (List.length df)),
     Some (filter (fun x => negb (in_batch (stored_rows df) x)) rows
           ++ last_writes (stored_rows df))).
Proof.
  intros Hdf. rewrite (upsert_records_stored df rows Hdf).
  now rewrite fold_replace_shape.
Qed.

(** X3.  However a call of [upsert_records] ends, no key leaves the table: every
    row there before has a row of its key there afterwards, and a row whose
    key no row of the batch has is itself still there, in its place. *)
Theorem upsert_records_keeps_keys
  (df : DataFrame) (rows : list weather_row)
  (outcome : result Z) (db' : database) :
  upsert_records df (Some rows) = (outcome, db') ->
  exists rows',
    db' = Some rows'
    /\ (forall x, In x rows ->
          exists y, In y rows' /\ same_key y x = true)
    /\ filter (fun x => negb (in_batch (stored_rows df) x)) rows'
       = filter (fun x => negb (in_batch (stored_rows df) x)) rows.
Proof.
  intros H. destruct outcome as [n | e].
  - apply upsert_records_returns in H as (_ & _ & ->). cbn [option_map].
    eexists. split; [reflexivity|]. split.
    + intros x Hx. apply fold_replace_covers. now left.
    + apply fold_replace_keeps_others.
  - apply upsert_records_raise_keeps in H. subst db'.
    exists rows. split; [reflexivity|]. split; [|reflexivity].
    intros x Hx. exists x. split; [exact Hx | apply same_key_refl].
Qed.

(** X4.  Upserting a batch a second time returns the same count and leaves the
    table exactly as the first upsert left it. *)
Theorem upsert_records_idempotent (df : DataFrame) (rows : list weather_row) :
  forallb storable df = true ->
  exists rows1,
    upsert_records df (Some rows)
    = (Ok (Z.of_nat (List.length df)), Some rows1)
    /\ upsert_records df (Some rows1)
       = (Ok (Z.of_nat (List.length df)), Some rows1).
Proof.
  intros Hdf. exists (fold_left replace_into (stored_rows df) rows).
  split; [now apply upsert_records_stored|].
  rewrite (upsert_records_stored df _ Hdf). now rewrite fold_replace_twice.
Qed.

(** X5.  On a table the program has written, the query returns no two rows of
    one key. *)
Theorem query_last_48h_unique_keys
  (now : datetime) (rows result : list weather_row) :
  written_by_upserts rows ->
  query_last_48h now (Some rows) = Ok result ->
  unique_keys result = true.
Proof.
  intros Hrows [= <-].
  apply (unique_keys_perm _ _ (Permutation_sym (select_since_perm _ rows))).
  apply unique_keys_filter. now apply written_by_upserts_unique.
Qed.

(** X6.  [strftime] cuts a timestamp to the second, and the text is the key:
    two measurements at one coordinate whose timestamps lie in the same
    second share one row, the later write replacing the earlier; in
    different seconds each keeps its own row. *)
Theorem timestamps_keyed_by_second
  (rows : list weather_row) (ts1 ts2 : Timestamp)
  (temp1 hum1 temp2 hum2 : float) (lat lon : real) :
  four_digit_year (Timestamp_second ts1) = true ->
  four_digit_year (Timestamp_second ts2) = true ->
  exists rows1 rows2,
    upsert_records [measurement ts1 temp1 hum1 lat lon] (Some rows)
    = (Ok 1, Some rows1)
    /\ upsert_records [measurement ts2 temp2 hum2 lat lon] (Some rows1)
       = (Ok 1, Some rows2)
    /\ (Timestamp_second ts1 = Timestamp_second ts2 ->
        filter (same_key (row_of ts1 temp1 hum1 lat lon)) rows2
        = [row_of ts2 temp2 hum2 lat lon])
    /\ (Timestamp_second ts1 <> Timestamp_second ts2 ->
        filter (same_key (row_of ts1 temp1 hum1 lat lon)) rows2
        = [row_of ts1 temp1 hum1 lat lon]
        /\ filter (same_key (row_of ts2 temp2 hum2 lat lon)) rows2
           = [row_of ts2 temp2 hum2 lat lon]).
Proof.
  intros H1 H2.
  set (w1 := row_of ts1 temp1 hum1 lat lon).
  set (w2 := row_of ts2 temp2 hum2 lat lon).
  exists (replace_into rows w1), (replace_into (replace_into rows w1) w2).
  split; [apply upsert_one|]. split; [apply upsert_one|].
  assert (Hk : same_key w2 w1
               = (Timestamp_second ts2 =? Timestamp_second ts1)).
  { unfold same_key, w1, w2, row_of. cbn [timestamp latitude longitude].
    rewrite !real_eqb_refl, !andb_true_r. unfold Timestamp_strftime.
    destruct (Z.eqb_spec (Timestamp_second ts2) (Timestamp_second ts1))
      as [-> | Hne]; [apply text_eqb_refl|].
    destruct (text_eqb _ _) eqn:E; [|reflexivity].
    apply text_eqb_eq in E. now apply format_utc_inj in E. }
  split.
  - intros E. apply replace_into_key. rewrite Hk. now apply Z.eqb_eq.
  - intros Hne.
    assert (Hk' : same_key w2 w1 = false)
      by (rewrite Hk; apply Z.eqb_neq; congruence).
    split.
    + rewrite (replace_into_other _ w2 w1 Hk').
      apply replace_into_key, same_key_refl.
    + apply replace_into_key, same_key_refl.
Qed.

(** ** Further properties of the window query *)

Lemma filter_length_le {A : Type} (p q : A -> bool) (l : list A) :
  (forall x, p x = true -> q x = true) ->
  (List.length (filter p l) <= List.length (filter q l))%nat.
Proof.
  intros Hpq. induction l as [| a l IH]; cbn [filter]; [lia|].
  destruct (p a) eqn:Hp.
  - rewrite (Hpq a Hp). cbn [List.length]. lia.
  - destruct (q a); cbn [List.length]; lia.
Qed.

Lemma cutoff_48h_mono (now1 now2 : datetime) :
  now1 <= now2 ->
  four_digit_year (window_start now1) = true ->
  four_digit_year (window_start now2) = true ->
  text_leb (cutoff_48h now1) (cutoff_48h now2) = true.
Proof.
  intros Hle H1 H2. unfold cutoff_48h, datetime_strftime.
  fold (window_start now1). fold (window_start now2).
  rewrite text_leb_format_utc by assumption. apply Z.leb_le.
  unfold window_start, datetime_second. apply Z.div_le_mono; lia.
Qed.

(** X7.  The window only moves forward: whatever the table holds, a row the
    query returns at a later time it also returns at an earlier time, so
    without new ingestion the result can only lose rows. *)
Theorem window_moves_forward
  (now1 now2 : datetime) (rows : list weather_row) :
  now1 <= now2 ->
  four_digit_year (window_start now1) = true ->
  four_digit_year (window_start now2) = true ->
  exists earlier later,
    query_last_48h now1 (Some rows) = Ok earlier
    /\ query_last_48h now2 (Some rows) = Ok later
    /\ (forall r, In r later -> In r earlier)
    /\ (List.length later <= List.length earlier)%nat.
Proof.
  intros Hle H1 H2.
  pose proof (cutoff_48h_mono now1 now2 Hle H1 H2) as Hc.
  assert (Himp : forall r : weather_row,
             text_leb (cutoff_48h now2) (timestamp r) = true ->
             text_leb (cutoff_48h now1) (timestamp r) = true)
    by (intros r; apply text_leb_trans; exact Hc).
  exists (select_since (cutoff_48h now1) rows),
    (select_since (cutoff_48h now2) rows).
  split; [reflexivity|]. split; [reflexivity|]. split.
  - intros r Hr. apply select_since_In in Hr as [Hin Hr].
    apply select_since_In. split; [exact Hin | now apply Himp].
  - rewrite (Permutation_length (select_since_perm (cutoff_48h now2) rows)).
    rewrite (Permutation_length (select_since_perm (cutoff_48h now1) rows)).
    now apply filter_length_le.
Qed.

(** X1.  [init_db] creates the table when it is absent and leaves a table that
    exists as it is; running it again changes nothing, and after it the
    query returns instead of raising. *)
Theorem init_db_idempotent (db : database) :
  (exists rows, init_db db = Some rows)
  /\ init_db (init_db db) = init_db db
  /\ (forall rows, init_db (Some rows) = Some rows)
  /\ (forall now, exists result, query_last_48h now (init_db db) = Ok result).
Proof.
  destruct db as [rows|].
  - split; [now exists rows|]. split; [reflexivity|]. split; [reflexivity|].
    intros now. eexists. reflexivity.
  - split; [now exists []|]. split; [reflexivity|]. split; [reflexivity|].
    intros now. eexists. reflexivity.
Qed.

(** ** Reading timestamps back *)

Lemma digit_value_digit (d : Z) :
  0 <= d < 10 -> digit_value (digit d) = Some d.
Proof.
  intros Hd. unfold digit_value, digit.
  rewrite N_ascii_embedding by lia.
  replace ((48 <=? Z.of_N (48 + Z.to_N d)) && (Z.of_N (48 + Z.to_N d) <=? 57))
    with true.
  - f_equal. lia.
  - symmetry. apply andb_true_iff. split; apply Z.leb_le; lia.
Qed.

Lemma take_digits_zero_pad (w : nat) :
  forall (acc n : Z) (rest : string),
  take_digits w acc (zero_pad w n ++ rest)
  = Some (acc * 10 ^ Z.of_nat w + n mod 10 ^ Z.of_nat w, rest).
Proof.
  induction w as [| w IH]; intros acc n rest.
  - cbn. rewrite Z.mod_1_r. do 2 f_equal. lia.
  - cbn [zero_pad append take_digits].
    assert (Hp : 0 < 10 ^ Z.of_nat w) by (apply Z.pow_pos_nonneg; lia).
    rewrite digit_value_digit by (apply Z.mod_pos_bound; lia).
    rewrite IH. do 2 f_equal.
    replace (10 ^ Z.of_nat (S w)) with (10 ^ Z.of_nat w * 10)
      by (rewrite Nat2Z.inj_succ, Z.pow_succ_r by lia; ring).
    rewrite Z.rem_mul_r by lia. ring.
Qed.

(** Reading undoes writing: the text of an instant reads back as that
    instant. *)
Lemma to_datetime_text_format_utc (s : Z) :
  four_digit_year s = true ->
  to_datetime_text (format_utc s) = Some (s * 1000000000).
Proof.
  intros Hs. pose proof (four_digit_year_spec s Hs) as Hy.
  pose proof (of_epoch_valid s) as Hv.
  pose proof (to_epoch_of_epoch s) as He.
  unfold format_utc in *. destruct (of_epoch s) as [y m d hh mm ss].
  cbn [year] in Hy.
  pose proof Hv as Hv'. apply valid_civil_iff in Hv' as ([Hm Hd] & Hh & Hmi & Hse).
  cbn [year month day hour minute second] in *.
  pose proof (days_in_month_pos y m Hm) as Hdim.
  unfold to_datetime_text, format_iso.
  cbn [year month day hour minute second].
  rewrite year_text_four_digits by lia.
  repeat (rewrite take_digits_zero_pad; cbn [opt_bind append expect Ascii.eqb Bool.eqb]).
  change (10 ^ Z.of_nat 4) with 10000. change (10 ^ Z.of_nat 2) with 100.
  rewrite !Z.mod_small by lia. cbn [Z.mul Z.add].
  now rewrite Hv, He.
Qed.

Lemma canonical_reads_back (r : weather_row) (t : Z) :
  canonical r t -> to_datetime_text (timestamp r) = Some (t * 1000000000).
Proof. intros [Ht ->]. now apply to_datetime_text_format_utc. Qed.

(** X8.  The timestamp of a measurement goes through the store cut to the
    second: upserted and queried, its text reads back as the start of the
    second the timestamp lies in. *)
Theorem upserted_timestamp_reads_back
  (rows : list weather_row) (now : datetime) (ts : Timestamp)
  (temp hum : float) (lat lon : real) :
  four_digit_year (Timestamp_second ts) = true ->
  four_digit_year (window_start now) = true ->
  window_start now <= Timestamp_second ts ->
  exists rows' result r back,
    upsert_records [measurement ts temp hum lat lon] (Some rows)
    = (Ok 1, Some rows')
    /\ query_last_48h now (Some rows') = Ok result
    /\ In r result
    /\ same_key r (row_of ts temp hum lat lon) = true
    /\ to_datetime_text (timestamp r) = Some back
    /\ back = Timestamp_second ts * 1000000000
    /\ back <= ts < back + 1000000000.
Proof.
  intros Hts Hnow Hwin.
  set (w := row_of ts temp hum lat lon).
  exists (replace_into rows w),
    (select_since (cutoff_48h now) (replace_into rows w)), w,
    (Timestamp_second ts * 1000000000).
  split; [apply upsert_one|]. split; [reflexivity|]. split; [|split; [|split]].
  - apply select_since_In. split.
    + unfold replace_into. apply in_or_app. right. now left.
    + unfold cutoff_48h, datetime_strftime. fold (window_start now).
      cbn [w row_of timestamp]. unfold Timestamp_strftime.
      rewrite text_leb_format_utc by assumption. now apply Z.leb_le.
  - apply same_key_refl.
  - apply canonical_reads_back. now split.
  - split; [reflexivity|]. unfold Timestamp_second.
    pose proof (Z.div_mod ts 1000000000 ltac:(discriminate)).
    pose proof (Z.mod_pos_bound ts 1000000000 eq_refl). lia.
Qed.

Lemma canonical_rows_read_back (l : list weather_row) :
  Forall (fun r => exists t, canonical r t) l ->
  exists tl,
    parse_dates l = map Some tl
    /\ Forall2 (fun r t => canonical r (t / 1000000000)
                           /\ t = t / 1000000000 * 1000000000) l tl.
Proof.
  induction 1 as [| r l [t Hr] _ (tl & Hp & Hf)].
  - exists []. split; [reflexivity | constructor].
  - exists (t * 1000000000 :: tl). cbn [parse_dates map].
    rewrite (canonical_reads_back r t Hr). split.
    + f_equal. exact Hp.
    + constructor; [|exact Hf].
      now rewrite Z.div_mul by discriminate.
Qed.

(** Upserting a batch of four-digit years keeps a table of canonical
    timestamps one, however the call ends. *)
Lemma upsert_records_canonical (df : DataFrame) (rows : list weather_row)
  (outcome : result Z) (db' : database) :
  Forall (fun r => exists t, canonical r t) rows ->
  Forall (fun row =>
            four_digit_year (Timestamp_second (df_timestamp row)) = true) df ->
  upsert_records df (Some rows) = (outcome, db') ->
  exists rows',
    db' = Some rows' /\ Forall (fun r => exists t, canonical r t) rows'.
Proof.
  intros Hrows Hdf H. destruct outcome as [n | e].
  - apply upsert_records_returns in H as (_ & _ & ->). cbn [option_map].
    eexists. split; [reflexivity|].
    apply fold_replace_Forall; [now apply stored_rows_canonical | exact Hrows].
  - apply upsert_records_raise_keeps in H. subst db'. now exists rows.
Qed.

(** X9.  On a table whose stored timestamps all come from instants with
    four-digit years (which upserting a batch of such instants keeps it),
    the timestamp column of the DataFrame the query returns has no NaT, is
    ascending, and holds nothing before the start of the window. *)
Theorem query_last_48h_timestamp_column
  (now : datetime) (rows result : list weather_row) :
  Forall (fun r => exists t, canonical r t) rows ->
  (forall df outcome db',
     Forall (fun row =>
               four_digit_year (Timestamp_second (df_timestamp row)) = true)
            df ->
     upsert_records df (Some rows) = (outcome, db') ->
     exists rows',
       db' = Some rows' /\ Forall (fun r => exists t, canonical r t) rows')
  /\ (four_digit_year (window_start now) = true ->
      query_last_48h now (Some rows) = Ok result ->
      exists column,
        parse_dates result = map Some column
        /\ StronglySorted Z.le column
        /\ Forall (fun t => window_start now * 1000000000 <= t) column).
Proof.
  intros Hrows. split.
  { intros df outcome db' Hdf H.
    exact (upsert_records_canonical df rows outcome db' Hrows Hdf H). }
  intros Hnow [= <-].
  assert (Hc : Forall (fun r => exists t, canonical r t)
                 (select_since (cutoff_48h now) rows)).
  { apply Forall_forall. intros r Hr. apply select_since_In in Hr as [Hr _].
    exact (proj1 (Forall_forall _ _) Hrows r Hr). }
  assert (Hw : Forall (fun r => text_leb (cutoff_48h now) (timestamp r) = true)
                 (select_since (cutoff_48h now) rows)).
  { apply Forall_forall. intros r Hr. now apply select_since_In in Hr as [_ Hr]. }
  pose proof (select_since_sorted (cutoff_48h now) rows) as Hs.
  destruct (canonical_rows_read_back _ Hc) as (column & Hp & Hf).
  exists column. split; [exact Hp|].
  clear Hp Hc. revert Hs Hw.
  induction Hf as [| r t l tl [[Ht Er] Et] Hf IH]; intros Hs Hw.
  - split; constructor.
  - inversion Hs as [| ? ? Hs' Hr]; subst.
    inversion Hw as [| ? ? Hwr Hw']; subst.
    destruct (IH Hs' Hw') as [IHs IHw]. split.
    + constructor; [exact IHs|].
      clear IH IHs IHw Hs Hs' Hw Hw' Hwr.
      induction Hf as [| r' t' l tl [[Ht' Er'] Et'] Hf IH']; constructor.
      * inversion Hr as [| ? ? Hrr' _]; subst.
        unfold timestamp_leb in Hrr'. rewrite Er, Er' in Hrr'.
        rewrite text_leb_format_utc in Hrr' by assumption.
        apply Z.leb_le in Hrr'. lia.
      * apply IH'. now inversion Hr.
    + constructor; [|exact IHw].
      unfold cutoff_48h, datetime_strftime in Hwr. fold (window_start now) in Hwr.
      rewrite Er, text_leb_format_utc in Hwr by assumption.
      apply Z.leb_le in Hwr. lia.
Qed.

(** ** Further properties of the fetcher and the routes *)

Lemma frame3_ok (ts : list Timestamp) (temps hums : list pyobj)
  (frame : list (Timestamp * pyobj * pyobj)) :
  frame3 ts temps hums = Ok frame ->
  List.length temps = List.length ts /\ List.length hums = List.length ts
  /\ frame = combine (combine ts temps) hums
  /\ List.length frame = List.length ts.
Proof.
  unfold frame3.
  destruct (Nat.eqb_spec (List.length ts) (List.length temps)) as [E1|];
    [|discriminate].
  destruct (Nat.eqb_spec (List.length ts) (List.length hums)) as [E2|];
    [|discriminate].
  cbn [andb]. intros [= <-]. repeat split; try congruence.
  rewrite !length_combine. lia.
Qed.

Lemma fold_min_spec (l : list Z) :
  forall a, let m := fold_left Z.min l a in
  m <= a /\ Forall (fun x => m <= x) l /\ In m (a :: l).
Proof.
  induction l as [| x l IH]; intros a; cbn [fold_left].
  - split; [lia|]. split; [constructor | now left].
  - destruct (IH (Z.min a x)) as (H1 & H2 & H3). cbv zeta.
    split; [lia|]. split.
    + constructor; [lia | exact H2].
    + destruct H3 as [H3 | H3]; [|now right; right].
      rewrite <- H3. destruct (Z.min_spec a x) as [[_ ->] | [_ ->]];
        [now left | now right; left].
Qed.

Lemma fold_max_spec (l : list Z) :
  forall a, let m := fold_left Z.max l a in
  a <= m /\ Forall (fun x => x <= m) l /\ In m (a :: l).
Proof.
  induction l as [| x l IH]; intros a; cbn [fold_left].
  - split; [lia|]. split; [constructor | now left].
  - destruct (IH (Z.max a x)) as (H1 & H2 & H3). cbv zeta.
    split; [lia|]. split.
    + constructor; [lia | exact H2].
    + destruct H3 as [H3 | H3]; [|now right; right].
      rewrite <- H3. destruct (Z.max_spec a x) as [[_ ->] | [_ ->]];
        [now right; left | now left].
Qed.

(** A row with a NaN coordinate is refused, whatever else it holds. *)
Lemma upsert_row_nan_coordinate (row : df_row) (c : connection) :
  df_latitude row = PyFloat nan \/ df_longitude row = PyFloat nan ->
  exists e, upsert_row row c = (Raise e, c).
Proof.
  intros H. unfold upsert_row, bind, lift, execute_insert_or_replace.
  destruct (py_float (df_temperature_2m row)); [|now eexists].
  destruct (py_float (df_relative_humidity_2m row)); [|now eexists].
  destruct (py_float (df_latitude row)) as [lat|] eqn:Hlat; [|now eexists].
  destruct (py_float (df_longitude row)) as [lon|] eqn:Hlon; [|now eexists].
  destruct (current c); [|now eexists].
  destruct H as [H | H].
  - rewrite H in Hlat. injection Hlat as <-. cbn [bind_float]. now eexists.
  - rewrite H in Hlon. injection Hlon as <-. cbn [bind_float].
    destruct (bind_float lat); now eexists.
Qed.

Lemma stored_rows_In (df : DataFrame) (row : df_row) :
  In row df -> forallb storable df = true ->
  exists w, stored_row row = Some w /\ In w (stored_rows df).
Proof.
  induction df as [| r df IH]; cbn [In forallb stored_rows]; [easy|].
  intros Hin H. apply andb_true_iff in H as [Hr Hdf]. unfold storable in Hr.
  destruct (stored_row r) as [w|] eqn:Hw; [|discriminate].
  destruct Hin as [-> | Hin].
  - exists w. split; [exact Hw | now left].
  - destruct (IH Hin Hdf) as (w' & Hw' & Hin'). exists w'.
    split; [exact Hw' | now right].
Qed.

Lemma stored_rows_from (df : DataFrame) (w : weather_row) :
  In w (stored_rows df) -> exists row, In row df /\ stored_row row = Some w.
Proof.
  induction df as [| r df IH]; cbn [stored_rows]; [easy|].
  destruct (stored_row r) as [v|] eqn:Hv.
  - intros [<- | Hin].
    + exists r. split; [now left | exact Hv].
    + destruct (IH Hin) as (row & Hr & Hw). exists row. split; [now right|exact Hw].
  - intros Hin. destruct (IH Hin) as (row & Hr & Hw).
    exists row. split; [now right|exact Hw].
Qed.

(** Only a table that exists takes a row. *)
Lemma upsert_needs_table (df : DataFrame) (db db' : database)
  (n : Z) :
  upsert_records df db = (Ok n, db') -> df <> [] ->
  exists rows, db = Some rows.
Proof.
  destruct df as [| row rest]; [easy|]. intros H _.
  unfold upsert_records, with_conn, bind in H. cbn [upsert_loop] in H.
  unfold bind in H.
  destruct (upsert_row row (get_conn db)) as [[[]|e] c] eqn:Hrow;
    [|discriminate].
  apply upsert_row_returns in Hrow as (rows & _ & Hc & _).
  now exists rows.
Qed.

Section RouteFacts.

Variable to_datetime : string -> option Timestamp.
Variable float_of_str : string -> option float.
Variable to_excel :
  list (string * option real * option real) -> result (list Byte.byte).
Variable write_pdf : datetime -> list weather_row -> option (list Byte.byte).
Variable PdfPages : list weather_row -> list Byte.byte.

Lemma to_datetime_all_In (times : list string) (ts : list Timestamp)
  (s : string) (t : Timestamp) :
  to_datetime_all to_datetime times = Ok ts ->
  In s times -> to_datetime s = Some t -> In t ts.
Proof.
  revert ts. induction times as [| x times IH]; cbn [to_datetime_all In];
    [easy|].
  intros ts H Hin Hs.
  destruct (to_datetime x) as [tx|] eqn:Hx; [|discriminate].
  destruct (to_datetime_all to_datetime times) as [ts'|]; [|discriminate].
  cbn [and_then] in H. injection H as <-.
  destruct Hin as [-> | Hin].
  - left. congruence.
  - right. now apply (IH ts').
Qed.

(** The frame of a successful fetch, spelled out. *)
Lemma fetch_open_meteo_frame (reply : http_reply) (lat lon : float)
  (df : DataFrame) :
  fetch_open_meteo to_datetime reply lat lon = Ok df ->
  exists status h ts,
    reply = Reply status (Json h)
    /\ to_datetime_all to_datetime (time h) = Ok ts
    /\ List.length ts = List.length (time h)
    /\ List.length (hourly_temperature_2m h) = List.length (time h)
    /\ List.length (hourly_relative_humidity_2m h) = List.length (time h)
    /\ time h <> []
    /\ df = map (fun row =>
                   mkDf (fst (fst row)) (snd (fst row)) (snd row)
                        (PyFloat lat) (PyFloat lon))
                (sort_values
                   (combine (combine ts (column (hourly_temperature_2m h)))
                            (column (hourly_relative_humidity_2m h)))).
Proof.
  intros H. pose proof H as H0. apply fetch_open_meteo_ok in H
    as (status & h & ts & frame & -> & Hs & Hts & Hf & ->).
  exists status, h, ts. split; [reflexivity|]. split; [exact Hts|].
  apply frame3_ok in Hf as (L1 & L2 & -> & _).
  rewrite !column_length in *.
  pose proof (to_datetime_all_length to_datetime _ _ Hts) as L.
  repeat split; try congruence.
  intros E. unfold fetch_open_meteo in H0.
  cbn [requests_get and_then fst snd] in H0. rewrite Hs in H0.
  cbn [and_then response_json] in H0. rewrite E in H0. discriminate.
Qed.

Lemma fetch_open_meteo_length (lat lon : float)
  (df : DataFrame) (h : hourly) (status : Z) :
  fetch_open_meteo to_datetime (Reply status (Json h)) lat lon = Ok df ->
  List.length df = List.length (time h) /\ df <> [].
Proof.
  intros H. apply fetch_open_meteo_frame in H
    as (status' & h' & ts & [= <- <-] & _ & L & L1 & L2 & Hne & ->).
  assert (Hlen : List.length
                   (map (fun row : Timestamp * pyobj * pyobj =>
                           mkDf (fst (fst row)) (snd (fst row)) (snd row)
                                (PyFloat lat) (PyFloat lon))
                      (sort_values
                         (combine (combine ts (column (hourly_temperature_2m h)))
                            (column (hourly_relative_humidity_2m h)))))
                 = List.length (time h)).
  { rewrite length_map. unfold sort_values.
    rewrite (Permutation_length (sort_by_perm _ _)).
    rewrite !length_combine, !column_length. lia. }
  split; [exact Hlen|].
  intros E. rewrite E in Hlen. destruct (time h); [now apply Hne | discriminate].
Qed.

(** The ways a request to [/weather-report] can go. *)
Lemma weather_report_cases (lat_arg lon_arg : option string)
  (reply : http_reply) (db : database) (resp : response) (db' : database) :
  weather_report to_datetime float_of_str lat_arg lon_arg reply db
  = (resp, db') ->
  (resp = Jsonify (ErrorBody BadCoordinates) 400 /\ db' = db
   /\ ((exists e, arg_float float_of_str lat_arg = Raise e)
       \/ (exists e, arg_float float_of_str lon_arg = Raise e)))
  \/ (exists lat lon,
        arg_float float_of_str lat_arg = Ok lat
        /\ arg_float float_of_str lon_arg = Ok lon
        /\ ((exists e,
               fetch_open_meteo to_datetime reply lat lon = Raise e
               /\ resp = report_handler e /\ db' = db)
            \/ (exists df e,
                  fetch_open_meteo to_datetime reply lat lon = Ok df
                  /\ upsert_records df db = (Raise e, db)
                  /\ resp = report_handler e /\ db' = db)
            \/ (exists df n tmin tmax,
                  fetch_open_meteo to_datetime reply lat lon = Ok df
                  /\ upsert_records df db = (Ok n, db')
                  /\ timestamp_min df = Some tmin
                  /\ timestamp_max df = Some tmax
                  /\ resp = Jsonify
                              (Summary "Data fetched and stored" n
                                 (Timestamp_strftime tmin)
                                 (Timestamp_strftime tmax)
                                 (Z.of_nat (List.length df))) 200))).
Proof.
  unfold weather_report.
  destruct (arg_float float_of_str lat_arg) as [lat|e1] eqn:Hlat;
    cbn [and_then].
  2: { intros [= <- <-]. left. repeat split. left. now exists e1. }
  destruct (arg_float float_of_str lon_arg) as [lon|e2] eqn:Hlon;
    cbn [and_then].
  2: { intros [= <- <-]. left. repeat split. right. now exists e2. }
  intros H. right. exists lat, lon. split; [reflexivity|]. split; [reflexivity|].
  destruct (fetch_open_meteo to_datetime reply lat lon) as [df|e] eqn:Hf.
  2: { injection H as <- <-. left. now exists e. }
  destruct (upsert_records df db) as [[n|e] db1] eqn:Hu.
  2: { injection H as <- <-. right. left. exists df, e.
       pose proof (upsert_records_raise_keeps _ _ _ _ Hu) as ->.
       now repeat split. }
  right. right.
  assert (Hne : df <> []).
  { pose proof Hf as Hf'. apply fetch_open_meteo_frame in Hf'
      as (status & h & ts & -> & _).
    now apply (fetch_open_meteo_length _ _ _ _ _ Hf). }
  destruct df as [| r rest]; [now contradiction Hne|].
  cbn [timestamp_min timestamp_max strftime_or_raise and_then] in H.
  injection H as <- <-.
  eexists (r :: rest), n, _, _.
  split; [reflexivity|]. split; [exact Hu|].
  split; [reflexivity|]. split; reflexivity.
Qed.

Lemma to_datetime_all_from (times : list string) (ts : list Timestamp)
  (t : Timestamp) :
  to_datetime_all to_datetime times = Ok ts ->
  In t ts -> exists s, In s times /\ to_datetime s = Some t.
Proof.
  revert ts. induction times as [| x times IH]; cbn [to_datetime_all].
  - intros ts [= <-] [].
  - intros ts H Hin.
    destruct (to_datetime x) as [tx|] eqn:Hx; [|discriminate].
    destruct (to_datetime_all to_datetime times) as [ts'|]; [|discriminate].
    cbn [and_then] in H. injection H as <-.
    destruct Hin as [<- | Hin].
    + exists x. split; [now left | exact Hx].
    + destruct (IH ts' eq_refl Hin) as (s & Hs & Hst).
      exists s. split; [now right | exact Hst].
Qed.

Lemma combine_map_fst {A B : Type} (l : list A) (l' : list B) :
  List.length l = List.length l' -> map fst (combine l l') = l.
Proof.
  revert l'. induction l as [| a l IH]; destruct l' as [| b l'];
    cbn [List.length combine map]; try discriminate; [reflexivity|].
  intros [= H]. now rewrite (IH l' H).
Qed.

(** The rows of a fetched frame, read as triples, are the entries of the
    three arrays of the reply, each with the entries of its position. *)
Lemma fetch_open_meteo_triples (reply : http_reply) (lat lon : float)
  (df : DataFrame) (status : Z) (h : hourly) (ts : list Timestamp) :
  fetch_open_meteo to_datetime reply lat lon = Ok df ->
  reply = Reply status (Json h) ->
  to_datetime_all to_datetime (time h) = Ok ts ->
  Permutation
    (map (fun row => (df_timestamp row, df_temperature_2m row,
                      df_relative_humidity_2m row)) df)
    (combine (combine ts (column (hourly_temperature_2m h)))
             (column (hourly_relative_humidity_2m h)))
  /\ Permutation (map df_timestamp df) ts.
Proof.
  intros H -> Hts. apply fetch_open_meteo_frame in H
    as (status' & h' & ts' & [= <- <-] & Hts' & L & L1 & L2 & _ & ->).
  rewrite Hts in Hts'. injection Hts' as <-.
  assert (P : Permutation
                (map (fun row => (df_timestamp row, df_temperature_2m row,
                                  df_relative_humidity_2m row))
                   (map (fun row : Timestamp * pyobj * pyobj =>
                           mkDf (fst (fst row)) (snd (fst row)) (snd row)
                                (PyFloat lat) (PyFloat lon))
                      (sort_values
                         (combine (combine ts (column (hourly_temperature_2m h)))
                            (column (hourly_relative_humidity_2m h))))))
                (combine (combine ts (column (hourly_temperature_2m h)))
                   (column (hourly_relative_humidity_2m h)))).
  { rewrite map_map.
    rewrite (map_ext _ (fun x => x)) by (now intros [[? ?] ?]).
    rewrite map_id. apply sort_by_perm. }
  split; [exact P|].
  apply (Permutation_map (fun x : Timestamp * pyobj * pyobj => fst (fst x)))
    in P.
  rewrite map_map in P. cbn [fst] in P.
  rewrite <- (map_map fst fst) in P.
  rewrite !combine_map_fst in P
    by (rewrite ?length_combine, ?column_length; lia).
  exact P.
Qed.

(** X10.  A fetch loses and invents nothing: the frame has one row for each
    entry of the time array, and its rows are, in some order, the hours of
    the reply each with the temperature and humidity of its position. *)
Theorem fetch_open_meteo_keeps_readings
  (reply : http_reply) (lat lon : float) (df : DataFrame) :
  fetch_open_meteo to_datetime reply lat lon = Ok df ->
  exists status h ts,
    reply = Reply status (Json h)
    /\ to_datetime_all to_datetime (time h) = Ok ts
    /\ List.length df = List.length (time h)
    /\ (0 < List.length df)%nat
    /\ Permutation
         (map (fun row => (df_timestamp row, df_temperature_2m row,
                           df_relative_humidity_2m row)) df)
         (combine (combine ts (column (hourly_temperature_2m h)))
                  (column (hourly_relative_humidity_2m h))).
Proof.
  intros H. pose proof H as H0. apply fetch_open_meteo_frame in H0
    as (status & h & ts & -> & Hts & _).
  exists status, h, ts. split; [reflexivity|]. split; [exact Hts|].
  destruct (fetch_open_meteo_length _ _ _ _ _ H) as [Hlen Hne].
  split; [exact Hlen|]. split.
  - destruct df; [now contradiction Hne | cbn; lia].
  - exact (proj1 (fetch_open_meteo_triples _ _ _ _ _ _ _ H eq_refl Hts)).
Qed.

(** X11.  A missing or non-numeric [lat] or [lon] is answered with 400 before
    anything else happens: whatever the upstream would reply, the database
    is the one the route was given. *)
Theorem bad_coordinates_rejected
  (lat_arg lon_arg : option string) (reply : http_reply) (db : database) :
  (exists e, arg_float float_of_str lat_arg = Raise e)
  \/ (exists e, arg_float float_of_str lon_arg = Raise e) ->
  weather_report to_datetime float_of_str lat_arg lon_arg reply db
  = (Jsonify (ErrorBody BadCoordinates) 400, db)
  /\ arg_float float_of_str None = Raise TypeError.
Proof.
  intros H. split; [|reflexivity]. unfold weather_report.
  destruct H as [[e H] | [e H]].
  - now rewrite H.
  - rewrite H. now destruct (arg_float float_of_str lat_arg).
Qed.

(** X12.  A reply that is not JSON, or in which one of the three hourly arrays
    is absent or empty, makes the fetch raise ValueError; the route answers
    500 and the database is the one it was given. *)
Theorem missing_hourly_data_rejected
  (status : Z) (body : http_body) (lat lon : float)
  (lat_arg lon_arg : string) (db : database) :
  raise_for_status status = Ok tt ->
  body = NotJson
  \/ (exists h, body = Json h
                /\ (time h = [] \/ hourly_temperature_2m h = []
                    \/ hourly_relative_humidity_2m h = [])) ->
  float_of_str lat_arg = Some lat ->
  float_of_str lon_arg = Some lon ->
  fetch_open_meteo to_datetime (Reply status body) lat lon = Raise ValueError
  /\ weather_report to_datetime float_of_str (Some lat_arg) (Some lon_arg)
       (Reply status body) db
     = (Jsonify (ErrorBody (StrOf ValueError)) 500, db).
Proof.
  intros Hs Hb Hlat Hlon.
  assert (Hf : fetch_open_meteo to_datetime (Reply status body) lat lon
               = Raise ValueError).
  { unfold fetch_open_meteo. cbn [requests_get and_then fst snd].
    rewrite Hs. cbn [and_then].
    destruct Hb as [-> | (h & -> & Hh)]; [reflexivity|].
    cbn [response_json and_then].
    destruct Hh as [-> | [-> | ->]]; cbn [empty orb]; [reflexivity| |].
    - now rewrite orb_true_r.
    - now rewrite orb_true_r. }
  split; [exact Hf|].
  unfold weather_report, arg_float. rewrite Hlat, Hlon. cbn [and_then].
  now rewrite Hf.
Qed.

Lemma report_handler_status (e : exn) :
  status_code (report_handler e) = 500 \/ status_code (report_handler e) = 502.
Proof. destruct e; cbn; auto. Qed.

(** X13.  Only a request answered with 200 changes the database: after any
    other answer the database is the one the route was given. *)
Theorem failed_report_leaves_store
  (lat_arg lon_arg : option string) (reply : http_reply)
  (db db' : database) (resp : response) :
  weather_report to_datetime float_of_str lat_arg lon_arg reply db
  = (resp, db') ->
  status_code resp <> 200 ->
  db' = db.
Proof.
  intros H Hs. apply weather_report_cases in H
    as [(_ & -> & _)
       | (lat & lon & _ & _ &
          [(e & _ & _ & ->)
          | [(df & e & _ & _ & _ & ->)
            | (df & n & tmin & tmax & _ & _ & _ & _ & ->)]])];
    try reflexivity.
  now contradiction Hs.
Qed.

(** X14.  [float] reads "nan", so a NaN coordinate passes the validation of
    the route; but nothing is ever stored under it: the answer is neither
    400 nor 200 and the database is the one the route was given. *)
Theorem nan_coordinate_never_stored
  (lat_arg lon_arg : string) (lat lon : float)
  (reply : http_reply) (db : database) :
  float_of_str lat_arg = Some lat ->
  float_of_str lon_arg = Some lon ->
  lat = nan \/ lon = nan ->
  exists resp,
    weather_report to_datetime float_of_str (Some lat_arg) (Some lon_arg)
      reply db
    = (resp, db)
    /\ (status_code resp = 500 \/ status_code resp = 502).
Proof.
  intros Hlat Hlon Hnan.
  unfold weather_report, arg_float. rewrite Hlat, Hlon. cbn [and_then].
  destruct (fetch_open_meteo to_datetime reply lat lon) as [df|e] eqn:Hf.
  2: { eexists. split; [reflexivity | apply report_handler_status]. }
  pose proof Hf as Hf'. apply fetch_open_meteo_frame in Hf'
    as (status & h & ts & -> & _ & _ & _ & _ & _ & Hdf).
  destruct (fetch_open_meteo_length _ _ _ _ _ Hf) as [_ Hne].
  destruct df as [| row rest]; [now contradiction Hne|].
  assert (Hrow : df_latitude row = PyFloat lat /\ df_longitude row = PyFloat lon).
  { destruct (sort_values _) as [| x xs]; [discriminate|].
    cbn [map] in Hdf. injection Hdf as -> _. now split. }
  destruct (upsert_row_nan_coordinate row (get_conn db)) as [e He].
  { destruct Hrow as [Hla Hlo], Hnan as [-> | ->]; [now left | now right]. }
  assert (Hu : upsert_records (row :: rest) db = (Raise e, db)).
  { unfold upsert_records, with_conn, bind. cbn [upsert_loop]. unfold bind.
    now rewrite He. }
  rewrite Hu. eexists. split; [reflexivity | apply report_handler_status].
Qed.

(** X15.  The summary of a request answered with 200: [rows_upserted] and
    [samples] are both the number of entries of the time array of the reply,
    and [from] and [to] are the texts of the earliest and the latest hour of
    the reply. *)
Theorem report_summary
  (lat_arg lon_arg : option string) (reply : http_reply)
  (db db' : database) (resp : response) :
  weather_report to_datetime float_of_str lat_arg lon_arg reply db
  = (resp, db') ->
  status_code resp = 200 ->
  exists status h tmin tmax,
    reply = Reply status (Json h)
    /\ resp = Jsonify
                (Summary "Data fetched and stored"
                   (Z.of_nat (List.length (time h)))
                   (Timestamp_strftime tmin) (Timestamp_strftime tmax)
                   (Z.of_nat (List.length (time h)))) 200
    /\ (exists s, In s (time h) /\ to_datetime s = Some tmin)
    /\ (exists s, In s (time h) /\ to_datetime s = Some tmax)
    /\ (forall s t, In s (time h) -> to_datetime s = Some t ->
                    tmin <= t <= tmax).
Proof.
  intros H Hs. apply weather_report_cases in H
    as [(-> & _)
       | (lat & lon & _ & _ &
          [(e & _ & -> & _)
          | [(df & e & _ & _ & -> & _)
            | (df & n & tmin & tmax & Hf & Hu & Hmin & Hmax & ->)]])];
    try discriminate;
    try (destruct (report_handler_status e) as [E | E];
         rewrite E in Hs; discriminate).
  pose proof Hf as Hf'. apply fetch_open_meteo_frame in Hf'
    as (status & h & ts & -> & Hts & _).
  destruct (fetch_open_meteo_length _ _ _ _ _ Hf) as [Hlen _].
  destruct (fetch_open_meteo_triples _ _ _ _ _ _ _ Hf eq_refl Hts) as [_ Hp].
  apply upsert_records_returns in Hu as (_ & -> & _).
  exists status, h, tmin, tmax. split; [reflexivity|].
  split; [now rewrite Hlen|].
  destruct df as [| r rest]; [discriminate|].
  cbn [timestamp_min timestamp_max] in Hmin, Hmax.
  injection Hmin as <-. injection Hmax as <-.
  destruct (fold_min_spec (map df_timestamp rest) (df_timestamp r))
    as (Hm1 & Hm2 & Hm3).
  destruct (fold_max_spec (map df_timestamp rest) (df_timestamp r))
    as (HM1 & HM2 & HM3).
  change (df_timestamp r :: map df_timestamp rest)
    with (map df_timestamp (r :: rest)) in Hm3, HM3.
  split; [|split].
  - apply (to_datetime_all_from _ _ _ Hts). exact (Permutation_in _ Hp Hm3).
  - apply (to_datetime_all_from _ _ _ Hts). exact (Permutation_in _ Hp HM3).
  - intros s t Hin Hst.
    pose proof (to_datetime_all_In _ _ _ _ Hts Hin Hst) as Ht.
    apply (Permutation_in _ (Permutation_sym Hp)) in Ht.
    cbn [map In] in Ht. rewrite Forall_forall in Hm2, HM2.
    destruct Ht as [<- | Ht]; [lia|].
    specialize (Hm2 t Ht). specialize (HM2 t Ht). cbv beta in Hm2, HM2. lia.
Qed.

(** X16.  After a request answered with 200 whose reply holds an hour at or
    after the start of the window, neither export route gives the no-data
    answer: [/export/pdf] sends a file, and [/export/excel] fails with the
    ValueError of [to_excel] on the timestamp column, which is aware of its
    time zone; the request is answered with 500. *)
Theorem ingest_then_export
  (lat_arg lon_arg : option string) (status : Z) (h : hourly)
  (db db' : database) (resp : response)
  (now : datetime) (s : string) (t : Timestamp) :
  weather_report to_datetime float_of_str lat_arg lon_arg
    (Reply status (Json h)) db
  = (resp, db') ->
  status_code resp = 200 ->
  In s (time h) -> to_datetime s = Some t ->
  four_digit_year (Timestamp_second t) = true ->
  four_digit_year (window_start now) = true ->
  window_start now <= Timestamp_second t ->
  export_excel to_excel now db' = Unhandled ValueError
  /\ status_code (export_excel to_excel now db') = 500
  /\ is_file (export_pdf write_pdf PdfPages now db') = true.
Proof.
  intros H Hs Hin Hst Ht Hnow Hwin. apply weather_report_cases in H
    as [(-> & _)
       | (lat & lon & _ & _ &
          [(e & _ & -> & _)
          | [(df & e & _ & _ & -> & _)
            | (df & n & tmin & tmax & Hf & Hu & _ & _ & _)]])];
    try discriminate;
    try (destruct (report_handler_status e) as [E | E];
         rewrite E in Hs; discriminate).
  pose proof Hf as Hf'. apply fetch_open_meteo_frame in Hf'
    as (status' & h' & ts & [= <- <-] & Hts & _ & _ & _ & _ & Hdf).
  destruct (fetch_open_meteo_triples _ _ _ _ _ _ _ Hf eq_refl Hts) as [_ Hp].
  pose proof (to_datetime_all_In _ _ _ _ Hts Hin Hst) as Hts_in.
  apply (Permutation_in _ (Permutation_sym Hp)) in Hts_in.
  apply in_map_iff in Hts_in as (row & Hrow & Hrow_in).
  destruct (upsert_needs_table _ _ _ _ Hu) as [rows ->].
  { intros E. now rewrite E in Hrow_in. }
  apply upsert_records_returns in Hu as (Hstor & _ & ->).
  destruct (stored_rows_In df row Hrow_in Hstor) as (w & Hw & Hw_in).
  assert (Hwt : timestamp w = Timestamp_strftime t).
  { unfold stored_row in Hw.
    destruct (df_temperature_2m row), (df_relative_humidity_2m row),
      (df_latitude row) as [[|?]|], (df_longitude row) as [[|?]|];
      try discriminate.
    injection Hw as <-. cbn [timestamp]. now rewrite Hrow. }
  cbn [option_map].
  destruct (fold_replace_covers (stored_rows df) rows w (or_intror Hw_in))
    as (y & Hy & Hyw).
  assert (Hyt : timestamp y = Timestamp_strftime t).
  { unfold same_key in Hyw. apply andb_true_iff in Hyw as [Hyw _].
    apply andb_true_iff in Hyw as [Hyw _]. apply text_eqb_eq in Hyw.
    congruence. }
  assert (Hsel : In y (select_since (cutoff_48h now)
                         (fold_left replace_into (stored_rows df) rows))).
  { apply select_since_In. split; [exact Hy|].
    rewrite Hyt. unfold cutoff_48h, datetime_strftime, Timestamp_strftime.
    fold (window_start now).
    rewrite text_leb_format_utc by assumption. now apply Z.leb_le. }
  assert (Hz : tz_aware
                 (parse_dates
                    (select_since (cutoff_48h now)
                       (fold_left replace_into (stored_rows df) rows)))
               = true).
  { apply existsb_exists. exists (to_datetime_text (timestamp y)). split.
    - unfold parse_dates. apply in_map_iff. exists y.
      split; [reflexivity | exact Hsel].
    - rewrite Hyt. unfold Timestamp_strftime.
      now rewrite to_datetime_text_format_utc. }
  unfold export_excel, export_pdf, query_last_48h, with_conn.
  cbn [get_conn read_sql_query current fst].
  rewrite Hz.
  destruct (select_since _ _) as [| x xs]; [destruct Hsel|].
  cbn [empty is_file status_code]. repeat split.
Qed.

(** X17.  A request for one coordinate leaves the rows of every other
    coordinate as they are, in their order, and adds rows at its own
    coordinate only. *)
Theorem report_touches_one_coordinate
  (lat_arg lon_arg : string) (lat lon : real) (reply : http_reply)
  (rows : list weather_row) (resp : response) (db' : database) :
  float_of_str lat_arg = Some (num lat) ->
  float_of_str lon_arg = Some (num lon) ->
  weather_report to_datetime float_of_str (Some lat_arg) (Some lon_arg)
    reply (Some rows)
  = (resp, db') ->
  exists rows',
    db' = Some rows'
    /\ filter (fun x => negb (at_coordinate lat lon x)) rows'
       = filter (fun x => negb (at_coordinate lat lon x)) rows
    /\ (forall x, In x rows' -> In x rows \/ at_coordinate lat lon x = true).
Proof.
  intros Hlat Hlon H. apply weather_report_cases in H
    as [(_ & -> & _)
       | (la & lo & Hla & Hlo &
          [(e & _ & _ & ->)
          | [(df & e & _ & _ & _ & ->)
            | (df & n & tmin & tmax & Hf & Hu & _ & _ & _)]])];
    try (exists rows; split; [reflexivity|]; split; [reflexivity|];
         intros x Hx; now left).
  unfold arg_float in Hla, Hlo. rewrite Hlat in Hla. rewrite Hlon in Hlo.
  injection Hla as <-. injection Hlo as <-.
  apply fetch_open_meteo_frame in Hf
    as (status & h & ts & -> & _ & _ & _ & _ & _ & Hdf).
  apply upsert_records_returns in Hu as (_ & _ & ->). cbn [option_map].
  assert (Hws : forall w, In w (stored_rows df) ->
                          at_coordinate lat lon w = true).
  { intros w Hw. apply stored_rows_from in Hw as (row & Hrow & Hw).
    rewrite Hdf in Hrow. apply in_map_iff in Hrow as (x & <- & _).
    unfold stored_row in Hw.
    cbn [df_temperature_2m df_relative_humidity_2m df_latitude df_longitude]
      in Hw.
    destruct (snd (fst x)), (snd x); try discriminate.
    injection Hw as <-. unfold at_coordinate. cbn [latitude longitude].
    now rewrite (proj1 (real_column_kept lat)),
      (proj1 (real_column_kept lon)). }
  assert (Hb : forall x, in_batch (stored_rows df) x = true ->
                         at_coordinate lat lon x = true).
  { intros x Hx. apply existsb_exists in Hx as (w & Hw & Hk).
    pose proof (Hws w Hw) as Hc. unfold at_coordinate in Hc.
    apply andb_true_iff in Hc as [Hla Hlo]. unfold same_key in Hk.
    apply andb_true_iff in Hk as [Hk Hlo']. apply andb_true_iff in Hk as [_ Hla'].
    unfold at_coordinate.
    now rewrite (real_eqb_trans _ _ _ Hla Hla'), (real_eqb_trans _ _ _ Hlo Hlo'). }
  eexists. split; [reflexivity|]. split.
  - rewrite <- (filter_implied (fun x => negb (at_coordinate lat lon x))
                  (fun x => negb (in_batch (stored_rows df) x))
                  (fold_left replace_into (stored_rows df) rows)).
    + rewrite fold_replace_keeps_others. apply filter_implied.
      intros x Hx. destruct (in_batch (stored_rows df) x) eqn:E; [|reflexivity].
      now rewrite (Hb x E) in Hx.
    + intros x Hx. destruct (in_batch (stored_rows df) x) eqn:E; [|reflexivity].
      now rewrite (Hb x E) in Hx.
  - intros x Hx. rewrite fold_replace_shape in Hx.
    apply in_app_or in Hx as [Hx | Hx].
    + left. now apply filter_In in Hx as [Hx _].
    + right. apply last_writes_in_batch in Hx. exact (Hws x Hx).
Qed.

End RouteFacts.

(* ================================================================== *)
(** ** The further properties at concrete inputs *)

Lemma sample_table_canonical :
  Forall (fun r => exists t, canonical r t) sample_table.
Proof.
  repeat constructor.
  - exists (Timestamp_second (at_hour 0)). split; vm_compute; reflexivity.
  - exists (Timestamp_second (at_hour 1)). split; vm_compute; reflexivity.
  - exists (Timestamp_second (at_hour 2)). split; vm_compute; reflexivity.
Qed.

Lemma upsert_records_table_witness :
  forallb storable sample_frame = true
  /\ upsert_records sample_frame (Some (old_row :: sample_table))
     = (Ok (Z.of_nat (List.length sample_frame)),
        Some (filter (fun x => negb (in_batch (stored_rows sample_frame) x))
                (old_row :: sample_table)
              ++ last_writes (stored_rows sample_frame))).
Proof.
  split; [reflexivity|].
  apply (upsert_records_table sample_frame (old_row :: sample_table)).
  reflexivity.
Defined.

Lemma upsert_records_keeps_keys_witness :
  upsert_records sample_frame (Some [old_row])
  = (Ok 3, Some (old_row :: sample_table))
  /\ exists rows',
       Some (old_row :: sample_table) = Some rows'
       /\ (forall x, In x [old_row] ->
             exists y, In y rows' /\ same_key y x = true)
       /\ filter (fun x => negb (in_batch (stored_rows sample_frame) x)) rows'
          = filter (fun x => negb (in_batch (stored_rows sample_frame) x))
              [old_row].
Proof.
  assert (H : upsert_records sample_frame (Some [old_row])
              = (Ok 3, Some (old_row :: sample_table)))
    by (vm_compute; reflexivity).
  split; [exact H|].
  exact (upsert_records_keeps_keys sample_frame [old_row] (Ok 3)
           (Some (old_row :: sample_table)) H).
Defined.

Lemma upsert_records_idempotent_witness :
  forallb storable sample_frame = true
  /\ exists rows1,
       upsert_records sample_frame (Some [old_row])
       = (Ok (Z.of_nat (List.length sample_frame)), Some rows1)
       /\ upsert_records sample_frame (Some rows1)
          = (Ok (Z.of_nat (List.length sample_frame)), Some rows1).
Proof.
  split; [reflexivity|].
  apply (upsert_records_idempotent sample_frame [old_row]). reflexivity.
Defined.

Lemma query_last_48h_unique_keys_witness :
  query_last_48h sample_now (Some sample_table) = Ok sample_table
  /\ unique_keys sample_table = true.
Proof.
  assert (H : query_last_48h sample_now (Some sample_table) = Ok sample_table)
    by (vm_compute; reflexivity).
  split; [exact H|].
  exact (query_last_48h_unique_keys sample_now sample_table sample_table
           sample_table_written H).
Defined.

Lemma timestamps_keyed_by_second_witness :
  Timestamp_second (at_hour 0) = Timestamp_second (at_hour 0 + 500000000)
  /\ exists rows1 rows2,
       upsert_records [measurement (at_hour 0) (num f19_5) (num f65_0)
                         f52_5 f13_4] (Some [old_row])
       = (Ok 1, Some rows1)
       /\ upsert_records [measurement (at_hour 0 + 500000000) (num f20_0)
                            (num f60_0) f52_5 f13_4] (Some rows1)
          = (Ok 1, Some rows2)
       /\ (Timestamp_second (at_hour 0)
           = Timestamp_second (at_hour 0 + 500000000) ->
           filter (same_key (row_of (at_hour 0) (num f19_5) (num f65_0)
                               f52_5 f13_4)) rows2
           = [row_of (at_hour 0 + 500000000) (num f20_0) (num f60_0)
                f52_5 f13_4])
       /\ (Timestamp_second (at_hour 0)
           <> Timestamp_second (at_hour 0 + 500000000) ->
           filter (same_key (row_of (at_hour 0) (num f19_5) (num f65_0)
                               f52_5 f13_4)) rows2
           = [row_of (at_hour 0) (num f19_5) (num f65_0) f52_5 f13_4]
           /\ filter (same_key (row_of (at_hour 0 + 500000000) (num f20_0)
                                  (num f60_0) f52_5 f13_4)) rows2
              = [row_of (at_hour 0 + 500000000) (num f20_0) (num f60_0)
                   f52_5 f13_4]).
Proof.
  split; [reflexivity|].
  apply (timestamps_keyed_by_second [old_row] (at_hour 0)
           (at_hour 0 + 500000000) (num f19_5) (num f65_0) (num f20_0)
           (num f60_0) f52_5 f13_4);
    reflexivity.
Defined.

Lemma window_moves_forward_witness :
  sample_now <= sample_now + timedelta_hours 47
  /\ exists earlier later,
       query_last_48h sample_now (Some (old_row :: sample_table)) = Ok earlier
       /\ query_last_48h (sample_now + timedelta_hours 47)
            (Some (old_row :: sample_table)) = Ok later
       /\ (forall r, In r later -> In r earlier)
       /\ (List.length later <= List.length earlier)%nat.
Proof.
  assert (H : sample_now <= sample_now + timedelta_hours 47)
    by (vm_compute; discriminate).
  split; [exact H|].
  apply (window_moves_forward sample_now (sample_now + timedelta_hours 47)
           (old_row :: sample_table) H);
    reflexivity.
Defined.

Lemma upserted_timestamp_reads_back_witness :
  window_start sample_now <= Timestamp_second (at_hour 2 + 250000000)
  /\ exists rows' result r back,
       upsert_records [measurement (at_hour 2 + 250000000) nan (num f60_0)
                         f52_5 f13_4] (Some sample_table)
       = (Ok 1, Some rows')
       /\ query_last_48h sample_now (Some rows') = Ok result
       /\ In r result
       /\ same_key r (row_of (at_hour 2 + 250000000) nan (num f60_0)
                        f52_5 f13_4) = true
       /\ to_datetime_text (timestamp r) = Some back
       /\ back = Timestamp_second (at_hour 2 + 250000000) * 1000000000
       /\ back <= at_hour 2 + 250000000 < back + 1000000000.
Proof.
  assert (H : window_start sample_now
              <= Timestamp_second (at_hour 2 + 250000000))
    by (vm_compute; discriminate).
  split; [exact H|].
  apply (upserted_timestamp_reads_back sample_table sample_now
           (at_hour 2 + 250000000) nan (num f60_0) f52_5 f13_4);
    [reflexivity | reflexivity | exact H].
Defined.

Lemma query_last_48h_timestamp_column_witness :
  Forall (fun r => exists t, canonical r t) sample_table
  /\ query_last_48h sample_now (Some sample_table) = Ok sample_table
  /\ (forall df outcome db',
        Forall (fun row =>
                  four_digit_year (Timestamp_second (df_timestamp row)) = true)
               df ->
        upsert_records df (Some sample_table) = (outcome, db') ->
        exists rows',
          db' = Some rows' /\ Forall (fun r => exists t, canonical r t) rows')
  /\ exists column,
       parse_dates sample_table = map Some column
       /\ StronglySorted Z.le column
       /\ Forall (fun t => window_start sample_now * 1000000000 <= t) column.
Proof.
  assert (H : query_last_48h sample_now (Some sample_table) = Ok sample_table)
    by (vm_compute; reflexivity).
  split; [exact sample_table_canonical|]. split; [exact H|].
  destruct (query_last_48h_timestamp_column sample_now sample_table
              sample_table sample_table_canonical) as [Hkeep Hcol].
  split; [exact Hkeep | exact (Hcol eq_refl H)].
Defined.

Lemma fetch_open_meteo_keeps_readings_witness :
  fetch_open_meteo iso_minute_to_datetime (Reply 200 (Json sample_hourly))
    (num f52_5) (num f13_4) = Ok sample_frame
  /\ exists status h ts,
       Reply 200 (Json sample_hourly) = Reply status (Json h)
       /\ to_datetime_all iso_minute_to_datetime (time h) = Ok ts
       /\ List.length sample_frame = List.length (time h)
       /\ (0 < List.length sample_frame)%nat
       /\ Permutation
            (map (fun row => (df_timestamp row, df_temperature_2m row,
                              df_relative_humidity_2m row)) sample_frame)
            (combine (combine ts (column (hourly_temperature_2m h)))
                     (column (hourly_relative_humidity_2m h))).
Proof.
  assert (H : fetch_open_meteo iso_minute_to_datetime
                (Reply 200 (Json sample_hourly)) (num f52_5) (num f13_4)
              = Ok sample_frame) by (vm_compute; reflexivity).
  split; [exact H|].
  exact (fetch_open_meteo_keeps_readings iso_minute_to_datetime
           (Reply 200 (Json sample_hourly)) (num f52_5) (num f13_4)
           sample_frame H).
Defined.

Lemma bad_coordinates_rejected_witness :
  arg_float sample_float_of_str (Some "north") = Raise ValueError
  /\ weather_report iso_minute_to_datetime sample_float_of_str
       (Some "north") None (Reply 200 (Json sample_hourly)) (Some sample_table)
     = (Jsonify (ErrorBody BadCoordinates) 400, Some sample_table)
  /\ arg_float sample_float_of_str None = Raise TypeError.
Proof.
  assert (H : arg_float sample_float_of_str (Some "north") = Raise ValueError)
    by reflexivity.
  split; [exact H|].
  apply (bad_coordinates_rejected iso_minute_to_datetime sample_float_of_str
           (Some "north") None (Reply 200 (Json sample_hourly))
           (Some sample_table)).
  left. exists ValueError. exact H.
Defined.

Lemma missing_hourly_data_rejected_witness :
  fetch_open_meteo iso_minute_to_datetime
    (Reply 200 (Json (mkHourly (time sample_hourly) []
                        (hourly_relative_humidity_2m sample_hourly))))
    (num f52_5) (num f13_4)
  = Raise ValueError
  /\ weather_report iso_minute_to_datetime sample_float_of_str
       (Some "52.5") (Some "13.4")
       (Reply 200 (Json (mkHourly (time sample_hourly) []
                           (hourly_relative_humidity_2m sample_hourly))))
       (Some sample_table)
     = (Jsonify (ErrorBody (StrOf ValueError)) 500, Some sample_table).
Proof.
  apply (missing_hourly_data_rejected iso_minute_to_datetime
           sample_float_of_str 200
           (Json (mkHourly (time sample_hourly) []
                    (hourly_relative_humidity_2m sample_hourly)))
           (num f52_5) (num f13_4) "52.5" "13.4" (Some sample_table)).
  - reflexivity.
  - right. eexists. split; [reflexivity|]. right. left. reflexivity.
  - reflexivity.
  - reflexivity.
Defined.

Lemma failed_report_leaves_store_witness :
  weather_report iso_minute_to_datetime sample_float_of_str
    (Some "52.5") (Some "13.4") (Reply 503 NotJson) (Some sample_table)
  = (Jsonify (ErrorBody (HttpErrorText (HTTPError 503))) 502,
     Some sample_table)
  /\ Some sample_table = Some sample_table.
Proof.
  assert (H : weather_report iso_minute_to_datetime sample_float_of_str
                (Some "52.5") (Some "13.4") (Reply 503 NotJson)
                (Some sample_table)
              = (Jsonify (ErrorBody (HttpErrorText (HTTPError 503))) 502,
                 Some sample_table)) by (vm_compute; reflexivity).
  split; [exact H|].
  apply (failed_report_leaves_store iso_minute_to_datetime sample_float_of_str
           (Some "52.5") (Some "13.4") (Reply 503 NotJson)
           (Some sample_table) (Some sample_table) _ H).
  cbn. discriminate.
Defined.

Lemma nan_coordinate_never_stored_witness :
  sample_float_of_str "nan" = Some nan
  /\ exists resp,
       weather_report iso_minute_to_datetime sample_float_of_str
         (Some "nan") (Some "13.4") (Reply 200 (Json sample_hourly))
         (Some sample_table)
       = (resp, Some sample_table)
       /\ (status_code resp = 500 \/ status_code resp = 502).
Proof.
  split; [reflexivity|].
  apply (nan_coordinate_never_stored iso_minute_to_datetime
           sample_float_of_str "nan" "13.4" nan (num f13_4)
           (Reply 200 (Json sample_hourly)) (Some sample_table));
    [reflexivity | reflexivity | now left].
Defined.

Lemma report_summary_witness :
  weather_report iso_minute_to_datetime sample_float_of_str
    (Some "52.5") (Some "13.4") (Reply 200 (Json sample_hourly)) (Some [])
  = (Jsonify (Summary "Data fetched and stored" 3 "2023-11-14T20:00:00Z"
                      "2023-11-14T22:00:00Z" 3) 200,
     Some sample_table)
  /\ exists status h tmin tmax,
       Reply 200 (Json sample_hourly) = Reply status (Json h)
       /\ Jsonify (Summary "Data fetched and stored" 3 "2023-11-14T20:00:00Z"
                     "2023-11-14T22:00:00Z" 3) 200
          = Jsonify
              (Summary "Data fetched and stored"
                 (Z.of_nat (List.length (time h)))
                 (Timestamp_strftime tmin) (Timestamp_strftime tmax)
                 (Z.of_nat (List.length (time h)))) 200
       /\ (exists s, In s (time h) /\ iso_minute_to_datetime s = Some tmin)
       /\ (exists s, In s (time h) /\ iso_minute_to_datetime s = Some tmax)
       /\ (forall s t, In s (time h) -> iso_minute_to_datetime s = Some t ->
                       tmin <= t <= tmax).
Proof.
  assert (H : weather_report iso_minute_to_datetime sample_float_of_str
                (Some "52.5") (Some "13.4") (Reply 200 (Json sample_hourly))
                (Some [])
              = (Jsonify (Summary "Data fetched and stored" 3
                            "2023-11-14T20:00:00Z" "2023-11-14T22:00:00Z" 3)
                   200,
                 Some sample_table)) by (vm_compute; reflexivity).
  split; [exact H|].
  exact (report_summary iso_minute_to_datetime sample_float_of_str
           (Some "52.5") (Some "13.4") (Reply 200 (Json sample_hourly))
           (Some []) (Some sample_table) _ H eq_refl).
Defined.

Lemma ingest_then_export_witness :
  weather_report iso_minute_to_datetime sample_float_of_str
    (Some "52.5") (Some "13.4") (Reply 200 (Json sample_hourly)) (Some [])
  = (Jsonify (Summary "Data fetched and stored" 3 "2023-11-14T20:00:00Z"
                      "2023-11-14T22:00:00Z" 3) 200,
     Some sample_table)
  /\ export_excel no_sheet sample_now (Some sample_table)
     = Unhandled ValueError
  /\ status_code (export_excel no_sheet sample_now (Some sample_table)) = 500
  /\ is_file (export_pdf no_engine no_bytes sample_now (Some sample_table))
     = true.
Proof.
  assert (H : weather_report iso_minute_to_datetime sample_float_of_str
                (Some "52.5") (Some "13.4") (Reply 200 (Json sample_hourly))
                (Some [])
              = (Jsonify (Summary "Data fetched and stored" 3
                            "2023-11-14T20:00:00Z" "2023-11-14T22:00:00Z" 3)
                   200,
                 Some sample_table)) by (vm_compute; reflexivity).
  split; [exact H|].
  apply (ingest_then_export iso_minute_to_datetime sample_float_of_str
           no_sheet no_engine no_bytes
           (Some "52.5") (Some "13.4") 200 sample_hourly (Some [])
           (Some sample_table) _ sample_now "2023-11-14T22:00" (at_hour 2) H).
  - reflexivity.
  - right. right. left. reflexivity.
  - vm_compute. reflexivity.
  - reflexivity.
  - reflexivity.
  - vm_compute. discriminate.
Defined.

Lemma report_touches_one_coordinate_witness :
  weather_report iso_minute_to_datetime sample_float_of_str
    (Some "52.5") (Some "13.4") (Reply 200 (Json later_hourly))
    (Some [mkRow "2023-11-14T22:00:00Z" (Some f19_5) None f13_4 f52_5])
  = (Jsonify (Summary "Data fetched and stored" 3 "2023-11-14T22:00:00Z"
                      "2023-11-15T00:00:00Z" 3) 200,
     snd (weather_report iso_minute_to_datetime sample_float_of_str
            (Some "52.5") (Some "13.4") (Reply 200 (Json later_hourly))
            (Some [mkRow "2023-11-14T22:00:00Z" (Some f19_5) None
                     f13_4 f52_5])))
  /\ exists rows',
       snd (weather_report iso_minute_to_datetime sample_float_of_str
              (Some "52.5") (Some "13.4") (Reply 200 (Json later_hourly))
              (Some [mkRow "2023-11-14T22:00:00Z" (Some f19_5) None
                       f13_4 f52_5]))
       = Some rows'
       /\ filter (fun x => negb (at_coordinate f52_5 f13_4 x)) rows'
          = filter (fun x => negb (at_coordinate f52_5 f13_4 x))
              [mkRow "2023-11-14T22:00:00Z" (Some f19_5) None f13_4 f52_5]
       /\ (forall x, In x rows' ->
             In x [mkRow "2023-11-14T22:00:00Z" (Some f19_5) None f13_4 f52_5]
             \/ at_coordinate f52_5 f13_4 x = true).
Proof.
  assert (H : weather_report iso_minute_to_datetime sample_float_of_str
                (Some "52.5") (Some "13.4") (Reply 200 (Json later_hourly))
                (Some [mkRow "2023-11-14T22:00:00Z" (Some f19_5) None
                         f13_4 f52_5])
              = (Jsonify (Summary "Data fetched and stored" 3
                            "2023-11-14T22:00:00Z" "2023-11-15T00:00:00Z" 3)
                   200,
                 snd (weather_report iso_minute_to_datetime sample_float_of_str
                        (Some "52.5") (Some "13.4")
                        (Reply 200 (Json later_hourly))
                        (Some [mkRow "2023-11-14T22:00:00Z" (Some f19_5) None
                                 f13_4 f52_5]))))
    by (vm_compute; reflexivity).
  split; [exact H|].
  exact (report_touches_one_coordinate iso_minute_to_datetime
           sample_float_of_str "52.5" "13.4" f52_5 f13_4
           (Reply 200 (Json later_hourly))
           [mkRow "2023-11-14T22:00:00Z" (Some f19_5) None f13_4 f52_5]
           _ _ eq_refl eq_refl H).
Defined.
